(** * Grain challenge: ingestion and scoring programs

    A shallow embedding of the two Codabench programs of the repository,
    [ingestion_program/ingestion.py] (class [Ingestion]) and
    [scoring_program/score.py] (class [Scoring]), with the properties of the
    evaluation protocol proved about them, and of the data preparation
    script [src/script/split_by_year.py].

    Conventions of the embedding:
    - a Python [str] is a [string] (one character per code point below 256);
    - a Python [int] is a [Z]; a Python [float] is a primitive binary64
      [float], with the interpreter's own operations on it ([int / int],
      [round(x, n)], [int(x)]) written out in [PyFloat];
    - a [dict] with string keys is a [gmap string _], and [set(...)] a
      [gset string];
    - an attribute that Python initialises to [None] is an [option];
    - a method that can raise returns a [result]; what it prints is
      returned as a list of [message]s;
    - a file written with [json.dumps] is the [json] value that was
      written, and [json.load] reads that value. *)

From Stdlib Require Import ZArith List String Ascii Bool.
From Stdlib Require Import Floats.PrimFloat Floats.SpecFloat Floats.FloatOps.
From stdpp Require Import gmap strings list fin_maps sorting.

Local Open Scope string_scope.

(** ** Python strings *)

Module PyStr.

(** [s.split(sep)] for a separator of one character: never empty. *)
Fixpoint split (sep : ascii) (s : string) : list string :=
  match s with
  | EmptyString => [EmptyString]
  | String c s' =>
      if Ascii.eqb c sep then EmptyString :: split sep s'
      else match split sep s' with
           | h :: t => String c h :: t
           | [] => [String c EmptyString]
           end
  end.

(** [l[0]] on the list [split] returns. *)
Definition first (l : list string) : string := List.hd EmptyString l.

(** [s.startswith(prefix)]. *)
Fixpoint startswith (s prefix : string) {struct prefix} : bool :=
  match prefix with
  | EmptyString => true
  | String a prefix' =>
      match s with
      | EmptyString => false
      | String b s' => Ascii.eqb b a && startswith s' prefix'
      end
  end.

(** The scan of [s.replace(old, new)] for a non-empty [old]: left to right,
    [skip] counts the characters of a match still to be dropped. *)
Fixpoint replace_from (old new : string) (skip : nat) (s : string) : string :=
  match s with
  | EmptyString => EmptyString
  | String c s' =>
      match skip with
      | S k => replace_from old new k s'
      | O =>
          if startswith s old
          then new ++ replace_from old new (String.length old - 1) s'
          else String c (replace_from old new 0 s')
      end
  end.

(** With an empty [old], Python puts [new] before every character and at
    the end. *)
Fixpoint interleave (new s : string) : string :=
  match s with
  | EmptyString => new
  | String c s' => new ++ String c (interleave new s')
  end.

(** [s.replace(old, new)]. *)
Definition replace (old new s : string) : string :=
  match old with
  | EmptyString => interleave new s
  | String _ _ => replace_from old new 0 s
  end.

(** [s.endswith(suffix)]. *)
Definition endswith (s suffix : string) : bool :=
  let n := String.length s in
  let k := String.length suffix in
  (k <=? n)%nat && String.eqb (String.substring (n - k) k s) suffix.

(** [sub in s] on strings: [sub] occurs somewhere in [s]. *)
Fixpoint contains (sub s : string) : bool :=
  startswith s sub ||
  match s with
  | EmptyString => false
  | String _ s' => contains sub s'
  end.

End PyStr.

(** ** Python floats *)

Module PyFloat.

(** An integer as an unrounded binary number. *)
Definition Z2SF (z : Z) : spec_float :=
  match z with
  | Z0 => S754_zero false
  | Zpos p => S754_finite false p 0
  | Zneg p => S754_finite true p 0
  end.

(** [a / b] on two ints, [b] not zero: the quotient, correctly rounded
    once. *)
Definition int_true_div (a b : Z) : float :=
  SF2Prim (SFdiv prec emax (Z2SF a) (Z2SF b)).

(** [num / den] rounded to the nearest integer, ties to even
    ([0 <= num], [0 < den]). *)
Definition round_half_even (num den : Z) : Z :=
  let q := (num / den)%Z in
  let r := (num mod den)%Z in
  if (2 * r <? den)%Z then q
  else if (den <? 2 * r)%Z then (q + 1)%Z
  else if Z.even q then q else (q + 1)%Z.

(** [round(x, ndigits)] on a float: the exact value of [x] is rounded to
    [ndigits] decimals, ties to even, and the decimal is converted back to
    the nearest float; zeros, infinities and NaN come back unchanged. *)
Definition round (x : float) (ndigits : Z) : float :=
  match Prim2SF x with
  | S754_finite s m e =>
      let p := (10 ^ ndigits)%Z in
      let n := if (0 <=? e)%Z then (Zpos m * 2 ^ e * p)%Z
               else round_half_even (Zpos m * p) (2 ^ (- e)) in
      match n with
      | Zpos n' => SF2Prim (SFdiv prec emax (S754_finite s n' 0) (Z2SF p))
      | _ => SF2Prim (S754_zero s)
      end
  | _ => x
  end.

(** [int(x)] on a float: truncation towards zero; it raises on an
    infinity or a NaN. *)
Definition to_int (x : float) : option Z :=
  match Prim2SF x with
  | S754_zero _ => Some 0%Z
  | S754_finite s m e =>
      let a := if (0 <=? e)%Z then (Zpos m * 2 ^ e)%Z
               else (Zpos m / 2 ^ (- e))%Z in
      Some (if s then (- a)%Z else a)
  | _ => None
  end.

End PyFloat.

(** ** What the programs print, raise and write *)

(** The diagnostics ([[-]] and [[!]] lines) the two programs print; the
    informational [[*]] lines are left out. *)
Inductive message : Type :=
| TimerNeverStarted
| TimerNeverStopped
| ErrorLoading (filename : string)
| NoSeparateTestFiles
| NoPredictionsFound
| NoReferenceDataFound
| MissingGroundTruth (n : Z).

Inductive exception : Type :=
| FileNotFoundError (what : string)
| AttributeError
| TypeError
| OverflowError.

Inductive result (A : Type) : Type :=
| Ok (a : A)
| Raise (e : exception).

Arguments Ok {A} a.
Arguments Raise {A} e.

(** The values the programs hand to [json.dumps] and get back from
    [json.load]: [None], an int, a float, a dict with string keys (its
    items in order). A number reads back as the number that was written:
    an int is written in decimal (the interpreter's limit on the number of
    digits is left out), a float is written by [float.__repr__], the
    shortest decimal that [float()] reads back to the same float. *)
#[warnings="-register-all"]
Inductive json : Type :=
| JNull
| JInt (z : Z)
| JFloat (f : float)
| JObject (fields : list (string * json)).

(** The dict [json.load] makes of an object: of a name that is repeated
    the last value is kept. *)
Definition json_dict (fields : list (string * json)) : gmap string json :=
  list_to_map (reverse fields).

(** The items of a dict whose values are all ints; [None] when one is
    not. *)
Definition int_items (fields : list (string * json))
    : option (list (string * Z)) :=
  mapM (λ kv, match kv.2 with
              | JInt z => Some (kv.1, z)
              | _ => None
              end) fields.

(** [os.path.join(dir, name)] for a relative [name]. *)
Definition path_join (dir name : string) : string :=
  match dir with
  | EmptyString => name
  | _ => if PyStr.endswith dir "/" then dir ++ name else dir ++ "/" ++ name
  end.

(** ** scoring_program/score.py *)

Module Scoring.

(** A value of [scores_dict]. *)
Inductive value : Type :=
| VInt (z : Z)
| VFloat (f : float).

(** [self]: the attributes [__init__] sets. The two maps hold ints, as
    [compute_result] and [load_reference_data] store them, so the [int(...)]
    of [compute_scores] changes nothing. *)
Record t : Type := mk {
  start_time : option Z;
  end_time : option Z;
  reference_data : option (gmap string Z);
  ingestion_result : option (gmap string Z);
  ingestion_duration : option Z;
  scores_dict : gmap string value
}.

Definition init : t :=
  mk None None None None None ∅.

Definition set_scores_dict (self : t) (d : gmap string value) : t :=
  mk (start_time self) (end_time self) (reference_data self)
     (ingestion_result self) (ingestion_duration self) d.

(** [not d] for an attribute that is [None] or a dict. *)
Definition falsy (d : option (gmap string Z)) : bool :=
  match d with
  | None => true
  | Some m => bool_decide (m = ∅)
  end.

(** The counters of [compute_scores]. *)
Record counters : Type := mk_counters {
  correct : Z;
  total : Z;
  missing_ground_truth : Z
}.

(** One turn of the loop over [ingestion_result.items()]. *)
Definition count_item (reference : gmap string Z)
    (grain_id : string) (predicted_variety : Z) (c : counters) : counters :=
  match reference !! grain_id with
  | Some true_variety =>
      mk_counters
        (if Z.eqb predicted_variety true_variety then correct c + 1 else correct c)
        (total c + 1)
        (missing_ground_truth c)
  | None =>
      mk_counters (correct c) (total c) (missing_ground_truth c + 1)
  end.

Definition count_items (reference predictions : gmap string Z) : counters :=
  map_fold (count_item reference) (mk_counters 0 0 0) predictions.

Definition accuracy_of (c : counters) : float :=
  if (0 <? total c)%Z then PyFloat.int_true_div (correct c) (total c)
  else 0%float.

Definition compute_scores (self : t) : t * list message :=
  if falsy (ingestion_result self) then
    (set_scores_dict self {[ "score" := VFloat 0%float ]}, [NoPredictionsFound])
  else if falsy (reference_data self) then
    (set_scores_dict self {[ "score" := VFloat 0%float ]}, [NoReferenceDataFound])
  else
    let c := count_items (default ∅ (reference_data self))
                         (default ∅ (ingestion_result self)) in
    let accuracy := accuracy_of c in
    (set_scores_dict self
       (<["score" := VFloat (PyFloat.round accuracy 6)]>
        (<["correct" := VInt (correct c)]>
         (<["total" := VInt (total c)]>
          {[ "accuracy_percent" :=
               VFloat (PyFloat.round (PrimFloat.mul accuracy 100%float) 2) ]}))),
     if (0 <? missing_ground_truth c)%Z
     then [MissingGroundTruth (missing_ground_truth c)] else []).

(** The claim's own words, to compare with the code: the ids both maps
    hold, those of them predicted right, and the unrounded quotient. *)
Definition spec_total (reference predictions : gmap string Z) : Z :=
  Z.of_nat (size (filter (λ kv, is_Some (reference !! kv.1)) predictions)).

Definition spec_correct (reference predictions : gmap string Z) : Z :=
  Z.of_nat (size (filter (λ kv, reference !! kv.1 = Some kv.2) predictions)).

Definition spec_score (reference predictions : gmap string Z) : float :=
  if (0 <? spec_total reference predictions)%Z
  then PyFloat.int_true_div (spec_correct reference predictions)
                            (spec_total reference predictions)
  else 0%float.

(** [load_ingestion_result]. The files are given by path, each with the
    value [json.load] reads from it; a path exists when it has a file.
    [result.get] on a value that is no dict is an [AttributeError], [len]
    of a number or of [None] a [TypeError]. The attributes of [t] hold
    ints: the function is [None] where the file holds a prediction or a
    duration that is not an int. A missing duration file leaves
    [ingestion_duration] as it was. *)
Definition load_ingestion_result (self : t) (predictions_dir : string)
    (files : gmap string json) : option (result t) :=
  match files !! path_join predictions_dir "result.json" with
  | None => Some (Raise (FileNotFoundError "result.json"))
  | Some (JObject fields) =>
      match default (JObject []) (json_dict fields !! "predictions") with
      | JObject predictions =>
          items ← int_items predictions;
          let loaded : gmap string Z := list_to_map (reverse items) in
          let with_duration duration :=
            mk (start_time self) (end_time self) (reference_data self)
               (Some loaded) duration (scores_dict self) in
          match files !! path_join predictions_dir "ingestion_duration.json"
          with
          | None => Some (Ok (with_duration (ingestion_duration self)))
          | Some (JObject duration_data) =>
              match json_dict duration_data !! "ingestion_duration" with
              | None | Some JNull => Some (Ok (with_duration None))
              | Some (JInt minutes) => Some (Ok (with_duration (Some minutes)))
              | Some _ => None
              end
          | Some _ => Some (Raise AttributeError)
          end
      | _ => Some (Raise TypeError)
      end
  | Some _ => Some (Raise AttributeError)
  end.

(** [json.dumps] on a value of [scores_dict], and what [json.load] makes
    of a number. *)
Definition to_json (v : value) : json :=
  match v with
  | VInt z => JInt z
  | VFloat f => JFloat f
  end.

Definition of_json (j : json) : option value :=
  match j with
  | JInt z => Some (VInt z)
  | JFloat f => Some (VFloat f)
  | _ => None
  end.

(** [write_scores]: [os.makedirs] makes the output directory, and the
    file holds the record. *)
Definition write_scores (self : t) (output_dir : string)
    (files : gmap string json) : gmap string json :=
  <[path_join output_dir "scores.json" :=
      JObject (prod_map id to_json <$> map_to_list (scores_dict self))]> files.

End Scoring.

(** ** ingestion_program/ingestion.py *)

Module Ingestion.

Section WithImages.

(** The array stored under ['x'] in a sample file. *)
Context {image : Type}.

(** What [np.load(filepath)] gives for a sample file: reading a member can
    raise ([None]); ['y' in data] is [has_y]. *)
Record npz : Type := mk_npz {
  data_x : option image;
  has_y : bool;
  data_y : option Z
}.

(** The input directory as the program sees it: its listing, which of the
    joined paths exist, what loading a sample file gives ([None] when
    [np.load] raises), and the rows [(filename, varietyNumber)] of
    [input_data.csv] as [pd.read_csv] returns them. *)
Record directory : Type := mk_directory {
  listdir : list string;
  path_exists : string → bool;
  np_load : string → option npz;
  read_csv : list (string * Z)
}.

(** [train_data] and [test_data]: the keys ['X'], ['y'] (absent from
    [test_data]) and ['grain_ids']. *)
Record data : Type := mk_data {
  X : list image;
  y : option (list Z);
  grain_ids : list string
}.

(** [ingestion_result]: the keys ['predictions'] and ['num_predictions']. *)
Record ingestion_result_t : Type := mk_result {
  result_predictions : gmap string Z;
  num_predictions : Z
}.

(** [self]: the attributes [__init__] sets ([model] apart, which the
    program only passes on). *)
Record t : Type := mk {
  start_time : option Z;
  end_time : option Z;
  train_data : option data;
  test_data : option data;
  predictions : option (list Z);
  test_grain_ids : option (list string);
  ingestion_result : option ingestion_result_t
}.

Definition init : t :=
  mk None None None None None None None.

(** Clock readings are microseconds; [now] is what [dt.now()] returns. *)
Definition start_timer (self : t) (now : Z) : t :=
  mk (Some now) (end_time self) (train_data self) (test_data self)
     (predictions self) (test_grain_ids self) (ingestion_result self).

Definition stop_timer (self : t) (now : Z) : t :=
  mk (start_time self) (Some now) (train_data self) (test_data self)
     (predictions self) (test_grain_ids self) (ingestion_result self).

(** The [timedelta] is a number of microseconds. *)
Definition get_duration (self : t) : option Z * list message :=
  match start_time self with
  | None => (None, [TimerNeverStarted])
  | Some started =>
      match end_time self with
      | None => (None, [TimerNeverStopped])
      | Some stopped => (Some (stopped - started)%Z, [])
      end
  end.

(** [duration.total_seconds()]. *)
Definition total_seconds (duration : Z) : float :=
  PyFloat.int_true_div duration 1000000.

(** The files written under the output directory (taken to exist), by
    path: each holds the value given to [json.dumps].
    [duration.total_seconds()] on [None] is an [AttributeError]; it comes
    before the test [duration is not None]. *)
Definition save_duration (self : t) (output_dir : string)
    (files : gmap string json) : result (gmap string json) * list message :=
  let (duration, out) := get_duration self in
  match duration with
  | None => (Raise AttributeError, out)
  | Some d =>
      match PyFloat.to_int (PrimFloat.div (total_seconds d) 60%float) with
      | None => (Raise OverflowError, out)
      | Some duration_in_mins =>
          let duration_file := path_join output_dir "ingestion_duration.json" in
          (Ok (<[duration_file :=
                   JObject [("ingestion_duration", JInt duration_in_mins)]]> files),
           out)
      end
  end.

(** The lists [_load_npz_files] fills, and what it has printed. *)
Record loaded : Type := mk_loaded {
  X_list : list image;
  y_list : list Z;
  ids_list : list string;
  printed : list message
}.

(** [filename.split('_')[0].replace('grain', '')]. *)
Definition grain_id_of (filename : string) : string :=
  PyStr.replace "grain" "" (PyStr.first (PyStr.split "_" filename)).

(** The specification's words for the same: the text before the first
    underscore, with the prefix ['grain'] stripped from its front. *)
Definition spec_grain_id (filename : string) : string :=
  let token := PyStr.first (PyStr.split "_" filename) in
  if PyStr.startswith token "grain"
  then String.substring 5 (String.length token - 5) token
  else token.

(** What a file contributes when labels are not asked for: its image, if
    the path exists and [np.load] and the read of ['x'] both succeed. *)
Definition image_of (d : directory) (filename : string) : option image :=
  if path_exists d filename then np_load d filename ≫= data_x else None.

(** A file whose load raises: the path exists and no image comes out. *)
Definition load_error (d : directory) (filename : string) : Prop :=
  path_exists d filename = true ∧ image_of d filename = None.

#[export] Instance load_error_dec (d : directory) (filename : string) :
  Decision (load_error d filename).
Proof. unfold load_error. apply _. Defined.

(** One turn of the loop of [_load_npz_files]: the body of the [try] stops
    at the first read that raises, keeping what was appended before it. *)
Definition load_file (d : directory) (load_labels : bool)
    (acc : loaded) (filename : string) : loaded :=
  if path_exists d filename then
    let failed l := mk_loaded (X_list l) (y_list l) (ids_list l)
                              (printed l ++ [ErrorLoading filename]) in
    match np_load d filename with
    | None => failed acc
    | Some file =>
        match data_x file with
        | None => failed acc
        | Some x =>
            let acc1 := mk_loaded (X_list acc ++ [x]) (y_list acc)
                                  (ids_list acc) (printed acc) in
            if load_labels && has_y file then
              match data_y file with
              | None => failed acc1
              | Some label =>
                  mk_loaded (X_list acc1) (y_list acc1 ++ [label])
                            (ids_list acc1 ++ [grain_id_of filename])
                            (printed acc1)
              end
            else
              mk_loaded (X_list acc1) (y_list acc1)
                        (ids_list acc1 ++ [grain_id_of filename])
                        (printed acc1)
        end
    end
  else acc.

Definition load_files (d : directory) (load_labels : bool)
    (filenames : list string) : loaded :=
  foldl (load_file d load_labels) (mk_loaded [] [] [] []) filenames.

(** [_load_npz_files]: returns [(X, y, grain_ids)], [y] being [None] when
    no label was read. [np.array(X_list)] is the list itself: the images
    of one run are taken to have one shape, so that stacking them keeps
    their number and order. *)
Definition _load_npz_files (d : directory) (filenames : list string)
    (load_labels : bool)
    : (list image * option (list Z) * list string) * list message :=
  let l := load_files d load_labels filenames in
  ((X_list l,
    match y_list l with [] => None | _ => Some (y_list l) end,
    ids_list l),
   printed l).

(** [[f for f in os.listdir(input_dir) if f.endswith('.npz')]]. *)
Definition all_npz_files (d : directory) : list string :=
  List.filter (λ f, PyStr.endswith f ".npz") (listdir d).

(** [set(df['filename'].tolist())]. *)
Definition train_files (d : directory) : gset string :=
  list_to_set (read_csv d).*1.

(** [[f for f in all_npz_files if f not in train_files]]. *)
Definition test_files (d : directory) : list string :=
  List.filter (λ f, bool_decide (f ∉ train_files d)) (all_npz_files d).

Definition load_train_and_test_data (self : t) (d : directory)
    : result t * list message :=
  if negb (path_exists d "input_data.csv") then
    (Raise (FileNotFoundError "input_data.csv"), [])
  else
    let train_filenames := (read_csv d).*1 in
    let train_labels := (read_csv d).*2 in
    let '((X_train, _, train_grain_ids), out1) :=
      _load_npz_files d train_filenames false in
    let y_train := take (length X_train) train_labels in
    let train := mk_data X_train (Some y_train) train_grain_ids in
    let '((X_test, test_ids), out2) :=
      if (0 <? length (test_files d))%nat then
        let '((X_test, _, test_ids), out) :=
          _load_npz_files d (test_files d) false in
        ((X_test, test_ids), out)
      else ((X_train, train_grain_ids), [NoSeparateTestFiles]) in
    (Ok (mk (start_time self) (end_time self) (Some train)
            (Some (mk_data X_test None test_ids))
            (predictions self) (Some test_ids) (ingestion_result self)),
     (out1 ++ out2)%list).

(** [predict_submission]: the submitted model's [predict], an outside
    collaborator, is a function of the test data. *)
Definition predict_submission (self : t)
    (predict : option data → list Z) : t :=
  mk (start_time self) (end_time self) (train_data self) (test_data self)
     (Some (predict (test_data self))) (test_grain_ids self)
     (ingestion_result self).

(** The loop of [compute_result]: [result[str(grain_id)] = int(pred)] over
    [zip(test_grain_ids, predictions)]. *)
Definition zip_to_dict (ids : list string) (preds : list Z) : gmap string Z :=
  foldl (λ result gp, <[gp.1 := gp.2]> result) ∅ (zip ids preds).

(** [zip] raises a [TypeError] on [None]. *)
Definition compute_result (self : t) : result t :=
  match test_grain_ids self, predictions self with
  | Some ids, Some preds =>
      let result := zip_to_dict ids preds in
      Ok (mk (start_time self) (end_time self) (train_data self)
             (test_data self) (predictions self) (test_grain_ids self)
             (Some (mk_result result (Z.of_nat (size result)))))
  | _, _ => Raise TypeError
  end.

(** [json.dumps(self.ingestion_result)]: [null] before [compute_result]
    has run. *)
Definition result_json (r : option ingestion_result_t) : json :=
  match r with
  | None => JNull
  | Some r =>
      JObject
        [("predictions",
          JObject (prod_map id JInt <$> map_to_list (result_predictions r)));
         ("num_predictions", JInt (num_predictions r))]
  end.

(** [save_result]: [os.makedirs] makes the output directory, and the file
    holds the result. *)
Definition save_result (self : t) (output_dir : string)
    (files : gmap string json) : gmap string json :=
  <[path_join output_dir "result.json" :=
      result_json (ingestion_result self)]> files.

End WithImages.

Arguments npz : clear implicits.
Arguments directory : clear implicits.
Arguments data : clear implicits.
Arguments loaded : clear implicits.
Arguments t : clear implicits.

End Ingestion.

(** ** src/script/split_by_year.py *)

Module SplitByYear.

(** [\d] of a [str] pattern matches the decimal digits; below code point
    256 those are ['0'] to ['9']. *)
Definition is_digit (c : ascii) : bool :=
  (48 <=? nat_of_ascii c)%nat && (nat_of_ascii c <=? 57)%nat.

(** A match of [YEAR_RE = r"_(20\d{2})-"] at the front of [s]: its group 1. *)
Definition match_year (s : string) : option string :=
  match s with
  | String c0 (String c1 (String c2 (String d1 (String d2 (String c5 _))))) =>
      if Ascii.eqb c0 "_" && Ascii.eqb c1 "2" && Ascii.eqb c2 "0"
         && is_digit d1 && is_digit d2 && Ascii.eqb c5 "-"
      then Some (String c1 (String c2 (String d1 (String d2 EmptyString))))
      else None
  | _ => None
  end.

(** [YEAR_RE.search(filename)]: the match that starts leftmost. *)
Fixpoint parse_year_from_filename (filename : string) : option string :=
  match match_year filename with
  | Some year => Some year
  | None =>
      match filename with
      | EmptyString => None
      | String _ rest => parse_year_from_filename rest
      end
  end.

(** The shape of a year tag, to state what the search finds: [20] and two
    digits. *)
Definition is_year_tag (y : string) : bool :=
  match y with
  | String c1 (String c2 (String d1 (String d2 EmptyString))) =>
      Ascii.eqb c1 "2" && Ascii.eqb c2 "0" && is_digit d1 && is_digit d2
  | _ => false
  end.

(** [os.path.join(a, b)] and [os.path.basename(p)] of [posixpath]. *)
Definition os_path_join (a b : string) : string :=
  if PyStr.startswith b "/" then b
  else if (String.length a =? 0)%nat || PyStr.endswith a "/" then a ++ b
  else a ++ "/" ++ b.

Definition basename (p : string) : string :=
  List.last (PyStr.split "/" p) EmptyString.

(** An [os.DirEntry], and the file system as the script reads it. The
    listing of a directory is one snapshot: the two scans of a run see the
    same entries. *)
Record entry : Type := mk_entry {
  name : string;
  is_file : bool
}.

Record filesystem : Type := mk_filesystem {
  isdir : string → bool;
  scandir : string → list entry
}.

(** The generator [iter_npz_files], as the list of the paths it yields. *)
Definition iter_npz_files (fs : filesystem) (folder : string) : list string :=
  omap (λ e, if is_file e && PyStr.endswith (name e) ".npz"
             then Some (os_path_join folder (name e)) else None)
       (scandir fs folder).

(** What a run prints and what it asks of the file system, in order. The
    file operations themselves are taken to succeed. [Symlink src dst] is
    the whole branch of [action_apply]: an existing [dst] is removed, then
    [os.symlink(os.path.abspath(src), dst)]. *)
Inductive event : Type :=
| Warn_skipping (src_dir : string)
| Info_no_year (src_dir : string)
| Dry_mkdir (od : string)
| Makedirs (od : string)
| Dry_apply (mode src dst : string)
| Shutil_move (src dst : string)
| Shutil_copy2 (src dst : string)
| Symlink (src dst : string)
| Done (src_dir : string) (matched total : Z) (years : list string)
       (mode : string).

(** The events that change the file system. *)
Definition touches_files (e : event) : bool :=
  match e with
  | Makedirs _ | Shutil_move _ _ | Shutil_copy2 _ _ | Symlink _ _ => true
  | _ => false
  end.

Inductive outcome : Type :=
| Returned
| ValueError (what : string).

Definition action_apply (src dst mode : string) (dry_run : bool)
    : list event * outcome :=
  if dry_run then ([Dry_apply mode src dst], Returned)
  else if String.eqb mode "move" then ([Shutil_move src dst], Returned)
  else if String.eqb mode "copy" then ([Shutil_copy2 src dst], Returned)
  else if String.eqb mode "symlink" then ([Symlink src dst], Returned)
  else ([], ValueError ("Unknown mode: " ++ mode)).

(** [sorted(target_years)]: strings compare by code point. *)
Definition sorted (years : gset string) : list string :=
  merge_sort String.le (elements years).

(** The years tagged on the [.npz] files of [src_dir]. *)
Definition detected_years (fs : filesystem) (src_dir : string) : gset string :=
  list_to_set
    (omap (λ f, parse_year_from_filename (basename f))
          (iter_npz_files fs src_dir)).

(** [set(years) if years else detected_years]. *)
Definition target_years (fs : filesystem) (src_dir : string)
    (years : option (list string)) : gset string :=
  match years with
  | Some (y :: ys) => list_to_set (y :: ys)
  | _ => detected_years fs src_dir
  end.

(** The output directory of a year; [None] when [out_strategy] is neither
    of the two. *)
Definition out_dir (src_dir out_strategy y : string) : option string :=
  if String.eqb out_strategy "inplace" then Some (os_path_join src_dir y)
  else if String.eqb out_strategy "sibling" then Some (src_dir ++ "-" ++ y)
  else None.

(** The loop that fills [out_dirs] and makes the directories. *)
Fixpoint prepare_out_dirs (src_dir out_strategy : string) (dry_run : bool)
    (years : list string) (out_dirs : gmap string string)
    : gmap string string * list event * outcome :=
  match years with
  | [] => (out_dirs, [], Returned)
  | y :: rest =>
      match out_dir src_dir out_strategy y with
      | None =>
          (out_dirs, [],
           ValueError "out_strategy must be 'inplace' or 'sibling'")
      | Some od =>
          let '(dirs, events, o) :=
            prepare_out_dirs src_dir out_strategy dry_run rest
                             (<[y := od]> out_dirs) in
          (dirs, (if dry_run then Dry_mkdir od else Makedirs od) :: events, o)
      end
  end.

(** The loop that applies the split; it stops where [action_apply]
    raises. Returns the events, the outcome, [total] and [matched]. *)
Fixpoint apply_split (out_dirs : gmap string string) (mode : string)
    (dry_run : bool) (files : list string) (total matched : Z)
    : list event * outcome * Z * Z :=
  match files with
  | [] => ([], Returned, total, matched)
  | f :: rest =>
      let total := (total + 1)%Z in
      match parse_year_from_filename (basename f) ≫= (out_dirs !!.) with
      | None => apply_split out_dirs mode dry_run rest total matched
      | Some od =>
          let dst := os_path_join od (basename f) in
          match action_apply f dst mode dry_run with
          | (events, Returned) =>
              let '(events', o, total', matched') :=
                apply_split out_dirs mode dry_run rest total (matched + 1)%Z in
              ((events ++ events')%list, o, total', matched')
          | (events, raised) => (events, raised, total, matched)
          end
      end
  end.

Definition split_one_directory (fs : filesystem)
    (src_dir out_strategy mode : string) (years : option (list string))
    (dry_run : bool) : list event * outcome :=
  if negb (isdir fs src_dir) then ([Warn_skipping src_dir], Returned)
  else
    let targets := target_years fs src_dir years in
    if bool_decide (targets = ∅) then ([Info_no_year src_dir], Returned)
    else
      let '(out_dirs, events1, o1) :=
        prepare_out_dirs src_dir out_strategy dry_run (sorted targets) ∅ in
      match o1 with
      | ValueError _ => (events1, o1)
      | Returned =>
          let '(events2, o2, total, matched) :=
            apply_split out_dirs mode dry_run (iter_npz_files fs src_dir) 0 0 in
          match o2 with
          | ValueError _ => ((events1 ++ events2)%list, o2)
          | Returned =>
              ((events1 ++ events2
                ++ [Done src_dir matched total (sorted targets) mode])%list,
               Returned)
          end
      end.

(** To state where a file goes: the destination of [f] is the path of its
    basename under the output directory of its first year tag, when that
    year is a target. *)
Definition destination (src_dir out_strategy : string)
    (targets : gset string) (f : string) : option string :=
  y ← parse_year_from_filename (basename f);
  if decide (y ∈ targets)
  then od ← out_dir src_dir out_strategy y;
       Some (os_path_join od (basename f))
  else None.

(** The events of the second loop for one file, where [action_apply]
    returns. *)
Definition file_events (src_dir out_strategy mode : string)
    (targets : gset string) (dry_run : bool) (f : string) : list event :=
  match destination src_dir out_strategy targets f with
  | Some dst => (action_apply f dst mode dry_run).1
  | None => []
  end.

(** The events of the first loop for one year. *)
Definition year_events (src_dir out_strategy : string) (dry_run : bool)
    (y : string) : option event :=
  (λ od, if dry_run then Dry_mkdir od else Makedirs od)
    <$> out_dir src_dir out_strategy y.

(** To compare a dry run with a real one: the line a dry run prints in
    place of an operation. *)
Definition preview (e : event) : event :=
  match e with
  | Makedirs od => Dry_mkdir od
  | Shutil_move src dst => Dry_apply "move" src dst
  | Shutil_copy2 src dst => Dry_apply "copy" src dst
  | Symlink src dst => Dry_apply "symlink" src dst
  | _ => e
  end.

(** The namespace [parse_args] returns. *)
Record args : Type := mk_args {
  dirs : list string;
  arg_out_strategy : string;
  arg_mode : string;
  arg_years : option (list string);
  arg_dry_run : bool
}.

(** The loop of [main]: an exception ends the run. *)
Fixpoint split_directories (fs : filesystem) (a : args) (ds : list string)
    : list event * outcome :=
  match ds with
  | [] => ([], Returned)
  | d :: rest =>
      match split_one_directory fs d (arg_out_strategy a) (arg_mode a)
                                (match arg_years a with
                                 | Some (y :: ys) => Some (y :: ys)
                                 | _ => None
                                 end)
                                (arg_dry_run a) with
      | (events, Returned) =>
          let '(events', o) := split_directories fs a rest in
          ((events ++ events')%list, o)
      | raised => raised
      end
  end.

Definition main (fs : filesystem) (a : args) : list event * outcome :=
  split_directories fs a (dirs a).

End SplitByYear.

(** ** Concrete inputs *)

Module Examples.

(** The reference and prediction maps of the specification's example. *)
Definition ex_ref : gmap string Z := <["7" := 3%Z]> {[ "9" := 1%Z ]}.
Definition ex_pred : gmap string Z :=
  <["7" := 3%Z]> (<["9" := 2%Z]> {[ "5" := 3%Z ]}).

(** Three graded predictions, one of them right. *)
Definition third_ref : gmap string Z :=
  <["1" := 1%Z]> (<["2" := 1%Z]> {[ "3" := 1%Z ]}).
Definition third_pred : gmap string Z :=
  <["1" := 1%Z]> (<["2" := 2%Z]> {[ "3" := 2%Z ]}).

(** A scoring run that has loaded the two maps. *)
Definition scoring_with (reference predictions : gmap string Z) : Scoring.t :=
  Scoring.mk None None (Some reference) (Some predictions) None ∅.

(** Input directories, with integers standing for the images. A directory
    is given by its listing; a path exists when it is listed. *)
Definition readable (x : Z) : Ingestion.npz Z :=
  Ingestion.mk_npz (Some x) false None.

Definition dir_of (listing : list string)
    (load : string → option (Ingestion.npz Z))
    (manifest : list (string * Z)) : Ingestion.directory Z :=
  Ingestion.mk_directory listing
    (λ f, existsb (String.eqb f) listing) load manifest.

(** Two labelled files and one unlabelled file. *)
Definition dir_split : Ingestion.directory Z :=
  dir_of ["grain1_a.npz"; "input_data.csv"; "grain2_b.npz"; "grain3_c.npz";
          "notes.txt"]
    (λ f, if String.eqb f "grain1_a.npz" then Some (readable 11)
          else if String.eqb f "grain2_b.npz" then Some (readable 22)
          else if String.eqb f "grain3_c.npz" then Some (readable 33)
          else None)
    [("grain1_a.npz", 4%Z); ("grain2_b.npz", 5%Z)].

(** Every sample file is listed in the manifest, and the manifest lists a
    file that is not in the directory. *)
Definition dir_all_listed : Ingestion.directory Z :=
  dir_of ["grain1_a.npz"; "input_data.csv"]
    (λ f, if String.eqb f "grain1_a.npz" then Some (readable 11) else None)
    [("grain1_a.npz", 4%Z); ("grain2_b.npz", 5%Z)].

(** The second labelled file cannot be loaded. *)
Definition dir_broken : Ingestion.directory Z :=
  dir_of ["grain1_a.npz"; "input_data.csv"; "grain2_b.npz"; "grain3_c.npz"]
    (λ f, if String.eqb f "grain1_a.npz" then Some (readable 11)
          else if String.eqb f "grain3_c.npz" then Some (readable 33)
          else None)
    [("grain1_a.npz", 4%Z); ("grain2_b.npz", 5%Z); ("grain3_c.npz", 6%Z)].

(** One labelled file, and two unlabelled files of the same grain. *)
Definition dir_twins : Ingestion.directory Z :=
  dir_of ["grain7_a.npz"; "grain7_b.npz"; "grain1_c.npz"; "input_data.csv"]
    (λ f, if String.eqb f "grain7_a.npz" then Some (readable 71)
          else if String.eqb f "grain7_b.npz" then Some (readable 72)
          else if String.eqb f "grain1_c.npz" then Some (readable 11)
          else None)
    [("grain1_c.npz", 4%Z)].

(** No manifest. *)
Definition dir_no_manifest : Ingestion.directory Z :=
  dir_of ["grain1_a.npz"]
    (λ f, if String.eqb f "grain1_a.npz" then Some (readable 11) else None)
    [].

(** A sample file whose image reads and whose label does not. *)
Definition dir_bad_label : Ingestion.directory Z :=
  dir_of ["grain1_a.npz"]
    (λ f, if String.eqb f "grain1_a.npz"
          then Some (Ingestion.mk_npz (Some 11%Z) true None) else None)
    [].

End Examples.

Module SplitExamples.

Import SplitByYear.

(** A folder [data] with the two sample names of the script's docstring,
    a file without a year tag, a file that is not a sample and a
    sub-directory. *)
Definition tagged_2020 : string :=
  "grain12205_x45y19-var4_11000_us_2x_2020-12-02T111648_corr.npz".

Definition tagged_2021 : string :=
  "grain26027_var8-x75y12_7000_us_2x_2021-10-20T111433_corr.npz".

Definition grain_dir : filesystem :=
  mk_filesystem
    (λ p, String.eqb p "data")
    (λ p, if String.eqb p "data"
          then [mk_entry tagged_2020 true; mk_entry tagged_2021 true;
                mk_entry "grain7_untagged.npz" true;
                mk_entry "notes.txt" true; mk_entry "2020" false]
          else []).

(** A folder whose samples carry no year tag. *)
Definition untagged_dir : filesystem :=
  mk_filesystem
    (λ p, String.eqb p "data")
    (λ p, if String.eqb p "data"
          then [mk_entry "grain7_untagged.npz" true] else []).

End SplitExamples.

(** * Properties *)

Local Open Scope list_scope.
Local Open Scope nat_scope.

(** ** Scoring *)

Section ScoringProperties.

Import Scoring.

Implicit Types reference predictions : gmap string Z.

Lemma size_filter_insert_fresh (P : string * Z → Prop) `{!∀ kv, Decision (P kv)}
    (m : gmap string Z) (i : string) (x : Z) :
  m !! i = None →
  size (filter P (<[i:=x]> m)) =
    if decide (P (i, x)) then S (size (filter P m)) else size (filter P m).
Proof.
  intros Hi. rewrite map_filter_insert. case_decide.
  - apply map_size_insert_None, map_lookup_filter_None_2. by left.
  - by rewrite delete_id.
Qed.

(** The loop computes the three counts: ids in both maps with the same
    variety, ids in both maps, ids of the prediction map only. *)
Lemma count_items_spec reference predictions :
  count_items reference predictions =
    mk_counters (spec_correct reference predictions)
                (spec_total reference predictions)
                (Z.of_nat (size predictions) - spec_total reference predictions).
Proof.
  unfold count_items, spec_correct, spec_total.
  apply (map_fold_weak_ind (λ c m,
    c = mk_counters
          (Z.of_nat (size (filter (λ kv, reference !! kv.1 = Some kv.2) m)))
          (Z.of_nat (size (filter (λ kv, is_Some (reference !! kv.1)) m)))
          (Z.of_nat (size m) -
           Z.of_nat (size (filter (λ kv, is_Some (reference !! kv.1)) m))))).
  - rewrite !map_filter_empty, map_size_empty. reflexivity.
  - intros g p m c Hg ->. unfold count_item; simpl.
    rewrite !size_filter_insert_fresh, map_size_insert_None by done. simpl.
    destruct (reference !! g) as [v|] eqn:Href.
    + rewrite (decide_True (P := is_Some (Some v))) by eauto.
      destruct (Z.eqb_spec p v) as [->|Hne].
      * rewrite decide_True by done. f_equal; lia.
      * rewrite decide_False by congruence. f_equal; lia.
    + rewrite decide_False by done.
      rewrite (decide_False (P := is_Some None)) by (intros [? ?]; done).
      f_equal; lia.
Qed.


(** C1 (as amended). When both maps are loaded and non-empty, the record
    [compute_scores] stores has [correct] = the number of grain ids of the
    prediction map that the reference map holds with the same variety,
    [total] = the number of grain ids both maps hold, [score] = the quotient
    [correct / total] (0.0 when [total] is 0) rounded to six decimals and
    [accuracy_percent] = a hundred times the quotient, rounded to two; an id
    the reference map does not hold changes neither [correct] nor [total]. *)
Theorem compute_scores_counts (self : Scoring.t) reference predictions :
  reference_data self = Some reference →
  ingestion_result self = Some predictions →
  reference ≠ ∅ → predictions ≠ ∅ →
  scores_dict (compute_scores self).1 =
    <["score" := VFloat (PyFloat.round (spec_score reference predictions) 6)]>
    (<["correct" := VInt (spec_correct reference predictions)]>
    (<["total" := VInt (spec_total reference predictions)]>
    {[ "accuracy_percent" :=
         VFloat (PyFloat.round
                   (PrimFloat.mul (spec_score reference predictions) 100%float) 2) ]}))
  ∧ ∀ g p, reference !! g = None →
      correct (count_items reference (<[g:=p]> predictions)) =
        correct (count_items reference predictions)
      ∧ total (count_items reference (<[g:=p]> predictions)) =
        total (count_items reference predictions).
Proof.
  intros Href Hpred Hr Hp. split.
  - unfold compute_scores. rewrite Href, Hpred. simpl.
    rewrite !bool_decide_eq_false_2 by done.
    rewrite count_items_spec. reflexivity.
  - intros g p Hg. rewrite !count_items_spec. simpl.
    unfold spec_correct, spec_total.
    rewrite !map_filter_insert_not; [done| |].
    + intros v [w Hw]. simpl in Hw. congruence.
    + intros v Hv. simpl in Hv. congruence.
Qed.

(** The specification's example: reference [{"7": 3, "9": 1}] and
    predictions [{"7": 3, "9": 2, "5": 3}] give [correct = 1], [total = 2],
    [score = 0.5]. *)
Lemma compute_scores_counts_example :
  scores_dict
    (compute_scores (Examples.scoring_with Examples.ex_ref Examples.ex_pred)).1 =
    <["score" := VFloat 0.5%float]>
    (<["correct" := VInt 1]>
    (<["total" := VInt 2]>
    {[ "accuracy_percent" := VFloat 50%float ]})).
Proof.
  destruct (compute_scores_counts
              (Examples.scoring_with Examples.ex_ref Examples.ex_pred)
              Examples.ex_ref Examples.ex_pred eq_refl eq_refl) as [H _].
  - intros E. apply (f_equal (λ m, m !! "7")) in E. vm_compute in E. discriminate.
  - intros E. apply (f_equal (λ m, m !! "7")) in E. vm_compute in E. discriminate.
  - rewrite H. vm_compute. reflexivity.
Defined.

(** C1 (as stated) fails twice. With one prediction right out of three the
    stored [score] is the rounded 0.333333, not the quotient [1 / 3]; and
    with an empty prediction map the record has no [correct] at all. *)
Lemma compute_scores_score_not_quotient :
  (0 < spec_total Examples.third_ref Examples.third_pred)%Z
  ∧ scores_dict
      (compute_scores
         (Examples.scoring_with Examples.third_ref Examples.third_pred)).1
      !! "score"
    ≠ Some (VFloat (spec_score Examples.third_ref Examples.third_pred))
  ∧ scores_dict (compute_scores (Examples.scoring_with Examples.ex_ref ∅)).1
      !! "correct" = None.
Proof.
  split; [by vm_compute|]. split.
  - intros E.
    assert (Hf : ∀ a b, Some (VFloat a) = Some (VFloat b) →
                        Prim2SF a = Prim2SF b) by (intros ?? [= ->]; done).
    apply Hf in E. vm_compute in E. discriminate.
  - vm_compute. reflexivity.
Qed.

(** C2 (as amended). On maps of ints [compute_scores] does not raise: it
    is a total function here. When the prediction map or the reference map
    is missing or empty the record it stores is [{"score": 0.0}] alone;
    otherwise the record has exactly the four fields [score] and
    [accuracy_percent] (floats), [correct] and [total] (ints). *)
Theorem compute_scores_fields (self : Scoring.t) :
  let d := scores_dict (compute_scores self).1 in
  if falsy (ingestion_result self) || falsy (reference_data self)
  then d = {[ "score" := VFloat 0%float ]}
  else (∃ s c n a,
          d !! "score" = Some (VFloat s) ∧ d !! "correct" = Some (VInt c) ∧
          d !! "total" = Some (VInt n) ∧
          d !! "accuracy_percent" = Some (VFloat a))
       ∧ dom d = {[ "score"; "correct"; "total"; "accuracy_percent" ]}.
Proof.
  unfold compute_scores.
  destruct (falsy (ingestion_result self)); simpl; [done|].
  destruct (falsy (reference_data self)); simpl; [done|].
  split.
  - do 4 eexists. repeat split; by simplify_map_eq.
  - rewrite !dom_insert_L, dom_singleton_L. set_solver.
Qed.

(** C2 (as stated) fails: a run with an empty prediction map, and a run
    with no reference map, store a record with [score] only. *)
Lemma compute_scores_short_circuit_lacks_fields :
  let no_predictions :=
    scores_dict (compute_scores (Examples.scoring_with Examples.ex_ref ∅)).1 in
  let no_reference :=
    scores_dict
      (compute_scores
         (Scoring.mk None None None (Some Examples.ex_pred) None ∅)).1 in
  (no_predictions !! "score" = Some (VFloat 0%float)
   ∧ no_predictions !! "correct" = None ∧ no_predictions !! "total" = None
   ∧ no_predictions !! "accuracy_percent" = None)
  ∧ (no_reference !! "score" = Some (VFloat 0%float)
     ∧ no_reference !! "correct" = None ∧ no_reference !! "total" = None
     ∧ no_reference !! "accuracy_percent" = None).
Proof. repeat split; vm_compute; reflexivity. Qed.

End ScoringProperties.

(** ** Ingestion: the timer *)

Section TimerProperties.

Import Ingestion.

Context {image : Type}.

(** Whenever [get_duration] returns [None], [save_duration] raises. *)
Lemma save_duration_None (self : t image) output_dir files :
  (get_duration self).1 = None →
  save_duration self output_dir files =
    (Raise AttributeError, (get_duration self).2).
Proof.
  unfold save_duration. destruct (get_duration self) as [[d|] out]; done.
Qed.

(** C7 fails on the code. Before the timer is started, and between start
    and stop, [get_duration] returns [None] with its diagnostic, and
    [save_duration] raises [AttributeError] after that diagnostic: it
    calls [total_seconds()] on the [None] before it tests for it. *)
Theorem save_duration_before_timer (output_dir : string)
    (files : gmap string json) (now : Z) :
  get_duration (init (image := image)) = (None, [TimerNeverStarted])
  ∧ get_duration (start_timer (init (image := image)) now)
      = (None, [TimerNeverStopped])
  ∧ save_duration (init (image := image)) output_dir files
      = (Raise AttributeError, [TimerNeverStarted])
  ∧ save_duration (start_timer (init (image := image)) now) output_dir files
      = (Raise AttributeError, [TimerNeverStopped]).
Proof.
  split; [reflexivity|]. split; [reflexivity|].
  split; apply save_duration_None; reflexivity.
Qed.

(** With the timer started and stopped the file holds the whole minutes:
    125 seconds are 2 minutes, a microsecond less than a minute is 0. *)
Lemma save_duration_whole_minutes :
  save_duration
    (stop_timer (start_timer (init (image := image)) 1000%Z) 125001000%Z)
    "out" ∅
  = (Ok {[ "out/ingestion_duration.json" :=
             JObject [("ingestion_duration", JInt 2)] ]}, [])
  ∧ save_duration
      (stop_timer (start_timer (init (image := image)) 0%Z) 59999999%Z)
      "out/" ∅
    = (Ok {[ "out/ingestion_duration.json" :=
               JObject [("ingestion_duration", JInt 0)] ]}, []).
Proof. split; vm_compute; reflexivity. Qed.

End TimerProperties.

(** ** Ingestion: grain ids *)

Section GrainIdProperties.

Import Ingestion.

Local Open Scope string_scope.

Lemma first_split_token (token : string) :
  PyStr.contains "_" token = false →
  PyStr.first (PyStr.split "_" token) = token
  ∧ ∀ rest, PyStr.first (PyStr.split "_" (token ++ String "_" rest)) = token.
Proof.
  induction token as [|c token IH]; simpl.
  - intros _. split; reflexivity.
  - destruct (Ascii.eqb c "_"); simpl; [done|].
    intros Htoken. destruct (IH Htoken) as [IH1 IH2]. split.
    + destruct (PyStr.split "_" token); simpl in *; by f_equal.
    + intros rest. specialize (IH2 rest).
      destruct (PyStr.split "_" (token ++ String "_" rest));
        simpl in *; by f_equal.
Qed.

(** Where [old] does not occur there is nothing to replace. *)
Lemma replace_from_absent (old new s : string) :
  old ≠ "" →
  PyStr.contains old s = false →
  PyStr.replace_from old new 0 s = s.
Proof.
  intros Hold. induction s as [|c s IH]; [done|].
  simpl PyStr.contains. intros [Hp Hs]%orb_false_iff.
  simpl PyStr.replace_from. rewrite Hp. by rewrite IH.
Qed.

(** [grain] does not overlap itself: a match that starts inside [a] and
    runs into a following [grain] lies inside [a] altogether. *)
Lemma startswith_grain_app (a b : string) :
  PyStr.startswith (a ++ "grain" ++ b) "grain" = true →
  a = "" ∨ PyStr.startswith a "grain" = true.
Proof.
  destruct a as [|c1 [|c2 [|c3 [|c4 [|c5 a]]]]]; simpl; auto;
    rewrite ?andb_false_r; intros H; try discriminate H.
Qed.

(** [replace] drops the first [grain] and goes on behind it. *)
Lemma replace_grain_first (a b : string) :
  PyStr.contains "grain" a = false →
  PyStr.replace "grain" "" (a ++ "grain" ++ b)
  = a ++ PyStr.replace "grain" "" b.
Proof.
  unfold PyStr.replace. induction a as [|c a IH]; [reflexivity|].
  cbn [PyStr.contains]. intros [Hp Ha]%orb_false_iff.
  change (String c a ++ "grain" ++ b) with (String c (a ++ "grain" ++ b)).
  cbn [PyStr.replace_from].
  destruct (PyStr.startswith (String c (a ++ "grain" ++ b)) "grain") eqn:Hs.
  - apply (startswith_grain_app (String c a) b) in Hs as [?|Hs]; congruence.
  - rewrite IH by done. reflexivity.
Qed.

(** C8 (as amended). The grain id of a filename is the text before its
    first underscore (the whole name when it has none) put through
    [replace('grain', '')], which removes every occurrence of [grain] it
    meets from left to right: a text without [grain] stays as it is, and a
    text [a ++ "grain" ++ b] with no [grain] in [a] loses that [grain] and
    is treated further in [b]. When the text is [grain] followed by a rest
    in which [grain] does not occur, the grain id is the rest, unchanged. *)
Theorem grain_id_of_token (token rest : string) :
  PyStr.contains "_" token = false →
  grain_id_of token = PyStr.replace "grain" "" token
  ∧ grain_id_of (token ++ "_" ++ rest) = PyStr.replace "grain" "" token
  ∧ (PyStr.contains "grain" token = false →
     grain_id_of (token ++ "_" ++ rest) = token)
  ∧ (∀ a b, token = a ++ "grain" ++ b →
            PyStr.contains "grain" a = false →
            grain_id_of (token ++ "_" ++ rest)
            = a ++ PyStr.replace "grain" "" b)
  ∧ ∀ tail, token = "grain" ++ tail →
            PyStr.contains "grain" tail = false →
            grain_id_of (token ++ "_" ++ rest) = tail.
Proof.
  intros Htoken. destruct (first_split_token token Htoken) as [H1 H2].
  unfold grain_id_of. rewrite H1. split; [done|].
  change (token ++ "_" ++ rest) with (token ++ String "_" rest).
  rewrite H2. split; [done|]. split; [|split].
  - intros Habsent. by apply replace_from_absent.
  - intros a b -> Ha. by apply replace_grain_first.
  - intros tail -> Htail. simpl. by apply replace_from_absent.
Qed.

Lemma grain_id_of_token_example :
  grain_id_of
    "grain12205_x45y19-var4_11000_us_2x_2020-12-02T111648_corr.npz"
  = "12205".
Proof.
  destruct (grain_id_of_token "grain12205"
              "x45y19-var4_11000_us_2x_2020-12-02T111648_corr.npz"
              eq_refl) as (_ & _ & _ & _ & H).
  exact (H "12205" eq_refl eq_refl).
Defined.

(** C8 (as stated) fails: [replace] removes [grain] wherever it stands, a
    second time after the prefix and also where it is no prefix. *)
Lemma grain_id_of_not_prefix_strip :
  (grain_id_of "graingrain7_x45y19.npz" = "7"
   ∧ spec_grain_id "graingrain7_x45y19.npz" = "grain7")
  ∧ (grain_id_of "wholegrain7_x45y19.npz" = "whole7"
     ∧ spec_grain_id "wholegrain7_x45y19.npz" = "wholegrain7").
Proof. repeat split. Qed.

End GrainIdProperties.

(** ** Ingestion: loading the sample files *)

Section LoadingProperties.

Import Ingestion.

Context {image : Type}.

Implicit Types (d : directory image) (acc : loaded image).
Implicit Types (filenames : list string).

Lemma load_file_unlabelled d acc filename :
  load_file d false acc filename =
    match image_of d filename with
    | Some x =>
        mk_loaded (X_list acc ++ [x]) (y_list acc)
                  (ids_list acc ++ [grain_id_of filename]) (printed acc)
    | None =>
        if path_exists d filename
        then mk_loaded (X_list acc) (y_list acc) (ids_list acc)
                       (printed acc ++ [ErrorLoading filename])
        else acc
    end.
Proof.
  unfold load_file, image_of.
  destruct (path_exists d filename); [|done].
  destruct (np_load d filename) as [file|]; simpl; [|done].
  destruct (data_x file); done.
Qed.

(** The loop without labels, from any state of the four lists. *)
Lemma foldl_load_file_unlabelled d filenames acc :
  let l := foldl (load_file d false) acc filenames in
  X_list l = X_list acc ++ omap (image_of d) filenames
  ∧ ids_list l =
      ids_list acc ++
      (grain_id_of <$> filter (λ f, is_Some (image_of d f)) filenames)
  ∧ y_list l = y_list acc
  ∧ printed l =
      printed acc ++ (ErrorLoading <$> filter (load_error d) filenames).
Proof.
  revert acc. induction filenames as [|f fs IH]; intros acc; simpl.
  - by rewrite !app_nil_r.
  - destruct (IH (load_file d false acc f)) as (HX & Hids & Hy & Hout).
    rewrite HX, Hids, Hy, Hout, load_file_unlabelled. clear IH HX Hids Hy Hout.
    unfold load_error.
    destruct (image_of d f) as [x|] eqn:Himg; simpl.
    + rewrite (filter_cons_True (λ f, is_Some (image_of d f)))
        by (rewrite Himg; eauto).
      rewrite filter_cons_False by (rewrite Himg; intros [_ ?]; done).
      rewrite fmap_cons. by rewrite <- !app_assoc.
    + rewrite (filter_cons_False (λ f, is_Some (image_of d f)))
        by (rewrite Himg; intros [? ?]; done).
      destruct (path_exists d f) eqn:Hex; simpl.
      * rewrite filter_cons_True by (rewrite Himg, Hex; done).
        rewrite fmap_cons. by rewrite <- !app_assoc.
      * rewrite filter_cons_False by (rewrite Hex; intros [? _]; done). done.
Qed.

(** [_load_npz_files] with [load_labels=False], as both calls of
    [load_train_and_test_data] make it. *)
Lemma load_npz_files_unlabelled d filenames :
  _load_npz_files d filenames false =
    ((omap (image_of d) filenames, None,
      grain_id_of <$> filter (λ f, is_Some (image_of d f)) filenames),
     ErrorLoading <$> filter (load_error d) filenames).
Proof.
  unfold _load_npz_files, load_files.
  destruct (foldl_load_file_unlabelled d filenames (mk_loaded [] [] [] []))
    as (-> & -> & -> & ->).
  reflexivity.
Qed.

Lemma length_omap_filter d filenames :
  length (omap (image_of d) filenames) =
  length (filter (λ f, is_Some (image_of d f)) filenames).
Proof.
  induction filenames as [|f fs IH]; [done|]. simpl.
  destruct (image_of d f) eqn:E; simpl.
  - rewrite filter_cons_True by (rewrite E; eauto). simpl. f_equal. exact IH.
  - rewrite filter_cons_False by (rewrite E; intros [? ?]; done). exact IH.
Qed.

(** X1. Without labels the images and the grain ids stay aligned: a
    file that loads gives one image and one grain id, a file that is
    missing or raises gives neither. *)
Lemma load_npz_files_unlabelled_aligned d filenames :
  length (_load_npz_files d filenames false).1.1.1 =
  length (_load_npz_files d filenames false).1.2.
Proof.
  rewrite load_npz_files_unlabelled. simpl.
  by rewrite length_fmap, length_omap_filter.
Qed.

(** A file that raises while loading is skipped, whatever comes before
    and after it. *)
Lemma load_npz_files_skip d before filename after :
  image_of d filename = None →
  (_load_npz_files d (before ++ filename :: after) false).1 =
  (_load_npz_files d (before ++ after) false).1.
Proof.
  intros Himg. rewrite !load_npz_files_unlabelled. simpl.
  rewrite !omap_app, !filter_app. simpl. rewrite Himg.
  rewrite filter_cons_False by (rewrite Himg; intros [? ?]; done).
  reflexivity.
Qed.

Lemma elem_of_test_files d f :
  f ∈ test_files d ↔
  f ∈ listdir d ∧ PyStr.endswith f ".npz" = true ∧ f ∉ (read_csv d).*1.
Proof.
  unfold test_files, all_npz_files, train_files.
  rewrite !list_elem_of_In, !filter_In, bool_decide_eq_true.
  rewrite elem_of_list_to_set, !list_elem_of_In. tauto.
Qed.

(** What [load_train_and_test_data] stores once the manifest is there. *)
Lemma load_train_and_test_data_ok (self : t image) d :
  path_exists d "input_data.csv" = true →
  let names := (read_csv d).*1 in
  let X_train := omap (image_of d) names in
  let train_ids :=
    grain_id_of <$> filter (λ f, is_Some (image_of d f)) names in
  let X_test :=
    match test_files d with
    | [] => X_train
    | _ => omap (image_of d) (test_files d)
    end in
  let test_ids :=
    match test_files d with
    | [] => train_ids
    | _ => grain_id_of <$>
             filter (λ f, is_Some (image_of d f)) (test_files d)
    end in
  load_train_and_test_data self d =
    (Ok (mk (start_time self) (end_time self)
            (Some (mk_data X_train
                           (Some (take (length X_train) (read_csv d).*2))
                           train_ids))
            (Some (mk_data X_test None test_ids))
            (predictions self) (Some test_ids) (ingestion_result self)),
     (ErrorLoading <$> filter (load_error d) names) ++
     match test_files d with
     | [] => [NoSeparateTestFiles]
     | _ => ErrorLoading <$> filter (load_error d) (test_files d)
     end).
Proof.
  intros Hcsv. unfold load_train_and_test_data. rewrite Hcsv. cbn [negb].
  rewrite !load_npz_files_unlabelled.
  destruct (test_files d) as [|f fs]; reflexivity.
Qed.

(** C3 (as amended). With the manifest present, the training samples are
    the manifest's filenames that exist and load, in manifest order, one
    image and one grain id each; there are as many labels as training
    samples, and when every listed file loads they are the manifest's
    labels, so that each sample carries the [varietyNumber] listed for its
    filename. The test files are exactly the [.npz] files of the listing
    that the manifest does not list; when there is one, the test samples
    are those of them that load, unlabelled; when there is none, the test
    set is the training set. *)
Theorem load_train_and_test_data_partition (self : t image) d :
  path_exists d "input_data.csv" = true →
  ∃ self' out train test,
    load_train_and_test_data self d = (Ok self', out)
    ∧ train_data self' = Some train ∧ test_data self' = Some test
    ∧ X train = omap (image_of d) (read_csv d).*1
    ∧ grain_ids train =
        grain_id_of <$> filter (λ f, is_Some (image_of d f)) (read_csv d).*1
    ∧ (∃ labels, y train = Some labels
         ∧ length labels = length (X train)
         ∧ (Forall (λ f, is_Some (image_of d f)) (read_csv d).*1 →
            labels = (read_csv d).*2 ∧ length (X train) = length (read_csv d)))
    ∧ (∀ f, f ∈ test_files d ↔
            f ∈ listdir d ∧ PyStr.endswith f ".npz" = true
            ∧ f ∉ (read_csv d).*1)
    ∧ y test = None
    ∧ (test_files d ≠ [] →
         X test = omap (image_of d) (test_files d)
         ∧ grain_ids test =
             grain_id_of <$>
               filter (λ f, is_Some (image_of d f)) (test_files d))
    ∧ (test_files d = [] →
         X test = X train ∧ grain_ids test = grain_ids train).
Proof.
  intros Hcsv. rewrite (load_train_and_test_data_ok self d Hcsv).
  do 4 eexists. split; [reflexivity|]. simpl.
  split; [reflexivity|]. split; [reflexivity|].
  split; [reflexivity|]. split; [reflexivity|].
  assert (Hlen : length (omap (image_of d) (read_csv d).*1)
                 ≤ length (read_csv d).*2).
  { rewrite length_omap_filter, !length_fmap.
    rewrite <- (length_fmap fst (read_csv d)). apply length_filter. }
  split.
  { eexists. split; [reflexivity|]. split.
    - simpl. rewrite length_take. lia.
    - simpl. intros Hall.
      assert (Hfull : filter (λ f, is_Some (image_of d f)) (read_csv d).*1
                      = (read_csv d).*1).
      { clear Hlen. induction Hall as [|f fs Hf _ IH]; [done|].
        rewrite filter_cons_True by done. by rewrite IH. }
      rewrite length_omap_filter, Hfull, length_fmap. split; [|done].
      apply take_ge. by rewrite length_fmap. }
  split; [apply elem_of_test_files|].
  split; [reflexivity|].
  destruct (test_files d); split; intros; done.
Qed.

(** C5. Without [input_data.csv] in the input directory
    [load_train_and_test_data] raises [FileNotFoundError] (the
    specification's [MissingManifestError]) and loads nothing. With it the
    run always completes: a listed file, or a test file, whose load raises
    is reported and contributes nothing, and the lists hold what the files
    before it and after it contribute. *)
Theorem load_train_and_test_data_errors (self : t image) d :
  (path_exists d "input_data.csv" = false →
   load_train_and_test_data self d =
     (Raise (FileNotFoundError "input_data.csv"), []))
  ∧ (path_exists d "input_data.csv" = true →
     ∃ self' out train test,
       load_train_and_test_data self d = (Ok self', out)
       ∧ train_data self' = Some train ∧ test_data self' = Some test
       ∧ (∀ before f after,
            (read_csv d).*1 = before ++ f :: after → load_error d f →
            ErrorLoading f ∈ out
            ∧ X train = omap (image_of d) before ++ omap (image_of d) after
            ∧ grain_ids train =
                grain_id_of <$>
                  filter (λ f, is_Some (image_of d f)) (before ++ after))
       ∧ (∀ before f after,
            test_files d = before ++ f :: after → load_error d f →
            ErrorLoading f ∈ out
            ∧ X test = omap (image_of d) before ++ omap (image_of d) after
            ∧ grain_ids test =
                grain_id_of <$>
                  filter (λ f, is_Some (image_of d f)) (before ++ after))).
Proof.
  split.
  - intros Hcsv. unfold load_train_and_test_data. by rewrite Hcsv.
  - intros Hcsv. rewrite (load_train_and_test_data_ok self d Hcsv).
    do 4 eexists. split; [reflexivity|]. simpl.
    split; [reflexivity|]. split; [reflexivity|].
    assert (Hskip : ∀ before f after, load_error d f →
              omap (image_of d) (before ++ f :: after) =
                omap (image_of d) before ++ omap (image_of d) after
              ∧ filter (λ f, is_Some (image_of d f)) (before ++ f :: after) =
                filter (λ f, is_Some (image_of d f)) (before ++ after)
              ∧ ErrorLoading f ∈
                  ErrorLoading <$> filter (load_error d) (before ++ f :: after)).
    { intros before f after Herr. pose proof Herr as [_ Himg].
      rewrite omap_app, !filter_app. simpl. rewrite Himg.
      rewrite filter_cons_False by (rewrite Himg; intros [? ?]; done).
      repeat split. rewrite fmap_app. apply elem_of_app. right.
      rewrite filter_cons_True by done. left. }
    split.
    + intros before f after Hnames Herr. rewrite Hnames.
      destruct (Hskip before f after Herr) as (-> & -> & Hin).
      repeat split. apply elem_of_app. by left.
    + intros before f after Htest Herr. rewrite Htest.
      destruct (Hskip before f after Herr) as (-> & -> & Hin).
      destruct before; simpl in *; (repeat split; [|done..]);
        apply elem_of_app; by right.
Qed.

(** C6. When no [.npz] file of the listing is outside the manifest
    ([test_files] is empty), the test set is the training set: the same
    images and the same grain ids, also as [test_grain_ids]. *)
Theorem load_train_and_test_data_fallback (self : t image) d :
  path_exists d "input_data.csv" = true →
  test_files d = [] →
  ∃ self' out train test,
    load_train_and_test_data self d = (Ok self', out)
    ∧ train_data self' = Some train ∧ test_data self' = Some test
    ∧ X test = X train ∧ grain_ids test = grain_ids train
    ∧ test_grain_ids self' = Some (grain_ids train)
    ∧ NoSeparateTestFiles ∈ out.
Proof.
  intros Hcsv Hnone. rewrite (load_train_and_test_data_ok self d Hcsv).
  rewrite Hnone. do 4 eexists. split; [reflexivity|]. simpl.
  repeat split. apply elem_of_app. right. left.
Qed.

End LoadingProperties.

(** ** Ingestion: the prediction map *)

Section ResultProperties.

Import Ingestion.

Context {image : Type}.

Implicit Types (ids : list string) (preds : list Z).

(** The loop inserts the pairs in order: a later pair wins. *)
Lemma zip_to_dict_list_to_map ids preds :
  zip_to_dict ids preds = list_to_map (reverse (zip ids preds)).
Proof.
  unfold zip_to_dict. generalize (zip ids preds) as l.
  induction l as [|[g p] l IH] using rev_ind; [done|].
  by rewrite foldl_snoc, reverse_snoc, IH.
Qed.

Lemma fst_zip_take ids preds :
  (zip ids preds).*1 = take (length preds) ids.
Proof.
  rewrite <- (zip_with_take_l pair ids preds).
  apply fst_zip. rewrite length_take. lia.
Qed.

Lemma dom_zip_to_dict ids preds :
  dom (zip_to_dict ids preds) = list_to_set (take (length preds) ids).
Proof.
  rewrite zip_to_dict_list_to_map, dom_list_to_map_L, fmap_reverse.
  rewrite fst_zip_take. apply set_eq. intros g.
  by rewrite !elem_of_list_to_set, elem_of_reverse.
Qed.

Lemma foldl_insert_lookup_last (l : list (string * Z)) i g p :
  l !! i = Some (g, p) →
  (∀ j q, i < j → l !! j ≠ Some (g, q)) →
  foldl (λ result gp, <[gp.1 := gp.2]> result) (∅ : gmap string Z) l !! g
    = Some p.
Proof.
  revert i. induction l as [|[g' p'] l IH] using rev_ind; intros i Hi Hlast.
  - by rewrite lookup_nil in Hi.
  - rewrite foldl_snoc. simpl.
    apply lookup_snoc_Some in Hi as [[Hlt Hi]|[-> [= -> ->]]].
    + assert (g' ≠ g) as Hne.
      { intros ->. apply (Hlast (length l) p'); [done|].
        by rewrite list_lookup_middle. }
      rewrite lookup_insert_ne by done. apply (IH i); [done|].
      intros j q Hj Hq. apply (Hlast j q Hj).
      rewrite lookup_app_l; [done|]. by eapply lookup_lt_Some.
    + apply lookup_insert_eq.
Qed.

Lemma size_zip_to_dict ids preds :
  NoDup (take (length preds) ids) →
  size (zip_to_dict ids preds) = length ids `min` length preds.
Proof.
  intros Hnd. rewrite zip_to_dict_list_to_map, map_size_list_to_map.
  - by rewrite length_reverse, length_zip_with.
  - by rewrite fmap_reverse, fst_zip_take, reverse_Permutation.
Qed.

(** C4 (as amended). [compute_result] pairs the i-th grain id with the
    i-th prediction as far as both lists go and stores the pairs in that
    order, a later pair replacing an earlier one with the same id. The keys
    of the map are the paired grain ids, each once; [num_predictions] is
    the number of entries; a grain id maps to the prediction paired with
    its last occurrence. When the grain ids are pairwise distinct and there
    are as many predictions as test samples, the map has one entry per test
    sample, the i-th grain id mapped to the i-th prediction. *)
Theorem compute_result_pairs (self : t image) ids preds :
  test_grain_ids self = Some ids →
  predictions self = Some preds →
  ∃ self' r,
    compute_result self = Ok self' ∧ ingestion_result self' = Some r
    ∧ num_predictions r = Z.of_nat (size (result_predictions r))
    ∧ dom (result_predictions r) = list_to_set (take (length preds) ids)
    ∧ (∀ i g p,
         ids !! i = Some g → preds !! i = Some p →
         (∀ j, i < j → j < length preds → ids !! j ≠ Some g) →
         result_predictions r !! g = Some p)
    ∧ (NoDup ids → length preds = length ids →
         size (result_predictions r) = length ids
         ∧ ∀ i g p, ids !! i = Some g → preds !! i = Some p →
                    result_predictions r !! g = Some p).
Proof.
  intros Hids Hpreds. unfold compute_result. rewrite Hids, Hpreds.
  do 2 eexists. split; [reflexivity|]. simpl. split; [reflexivity|].
  split; [reflexivity|]. split; [apply dom_zip_to_dict|].
  assert (Hlast : ∀ i g p,
            ids !! i = Some g → preds !! i = Some p →
            (∀ j, i < j → j < length preds → ids !! j ≠ Some g) →
            zip_to_dict ids preds !! g = Some p).
  { intros i g p Hg Hp Hlater. apply (foldl_insert_lookup_last _ i).
    - apply lookup_zip_with_Some. eauto.
    - intros j q Hj (g' & q' & [= <- <-] & Hg' & Hq')%lookup_zip_with_Some.
      apply (Hlater j Hj); [|done]. by eapply lookup_lt_Some. }
  split; [exact Hlast|].
  intros Hnd Hlen. split.
  - simpl. rewrite size_zip_to_dict; [lia|]. by rewrite Hlen, firstn_all.
  - intros i g p Hg Hp. apply (Hlast i g p Hg Hp).
    intros j Hj _ Hg'. pose proof (NoDup_lookup _ _ _ _ Hnd Hg Hg'). lia.
Qed.

End ResultProperties.

(** ** Ingestion: concrete runs *)

Section LoadingExamples.

Import Ingestion.

Lemma load_train_and_test_data_partition_example :
  ∃ self' out train test,
    load_train_and_test_data Ingestion.init Examples.dir_split = (Ok self', out)
    ∧ train_data self' = Some train ∧ test_data self' = Some test
    ∧ X train = [11%Z; 22%Z] ∧ grain_ids train = ["1"; "2"]
    ∧ y train = Some [4%Z; 5%Z]
    ∧ X test = [33%Z] ∧ grain_ids test = ["3"] ∧ y test = None.
Proof.
  destruct (load_train_and_test_data_partition (image := Z)
              Ingestion.init Examples.dir_split eq_refl)
    as (self' & out & train & test & Hrun & Htrain & Htest & _).
  exists self', out, train, test.
  vm_compute in Hrun. injection Hrun as <- <-.
  injection Htrain as <-. injection Htest as <-.
  repeat split; reflexivity.
Defined.

(** C3 (as stated) fails. The manifest lists [grain1_a.npz] and
    [grain2_b.npz]; only the first is in the directory. The second listed
    file is no training sample, and the only training file is the test file
    too. *)
Lemma load_train_and_test_data_not_exact :
  (read_csv Examples.dir_all_listed).*1 = ["grain1_a.npz"; "grain2_b.npz"]
  ∧ ∃ self' out train test,
      load_train_and_test_data Ingestion.init Examples.dir_all_listed
        = (Ok self', out)
      ∧ train_data self' = Some train ∧ test_data self' = Some test
      ∧ X train = [11%Z] ∧ grain_ids train = ["1"]
      ∧ X test = [11%Z] ∧ grain_ids test = ["1"].
Proof.
  split; [reflexivity|]. do 4 eexists.
  split; [vm_compute; reflexivity|]. simpl. repeat split.
Qed.

(** A run with a listed file that cannot be loaded, and a run without
    manifest. *)
Lemma load_train_and_test_data_errors_example :
  (∃ self' out train,
     load_train_and_test_data Ingestion.init Examples.dir_broken
       = (Ok self', out)
     ∧ train_data self' = Some train
     ∧ ErrorLoading "grain2_b.npz" ∈ out
     ∧ X train = [11%Z; 33%Z] ∧ grain_ids train = ["1"; "3"])
  ∧ load_train_and_test_data Ingestion.init Examples.dir_no_manifest =
      (Raise (FileNotFoundError "input_data.csv"), []).
Proof.
  split.
  - destruct (load_train_and_test_data_errors (image := Z)
                Ingestion.init Examples.dir_broken) as [_ Hpresent].
    destruct (Hpresent eq_refl)
      as (self' & out & train & test & Hrun & Htrain & _ & Hlisted & _).
    destruct (Hlisted ["grain1_a.npz"] "grain2_b.npz" ["grain3_c.npz"]
                eq_refl (conj eq_refl eq_refl)) as (Hin & HX & Hids).
    exists self', out, train. repeat split; assumption.
  - apply (load_train_and_test_data_errors (image := Z)
             Ingestion.init Examples.dir_no_manifest). reflexivity.
Defined.

Lemma load_train_and_test_data_fallback_example :
  ∃ self' out train test,
    load_train_and_test_data Ingestion.init Examples.dir_all_listed
      = (Ok self', out)
    ∧ train_data self' = Some train ∧ test_data self' = Some test
    ∧ X test = X train ∧ grain_ids test = grain_ids train
    ∧ test_grain_ids self' = Some (grain_ids train)
    ∧ NoSeparateTestFiles ∈ out.
Proof.
  apply (load_train_and_test_data_fallback (image := Z)
           Ingestion.init Examples.dir_all_listed); reflexivity.
Defined.

(** C10 fails on the code. With [load_labels=True], a file whose image
    reads and whose label raises has left its image in [X] when the
    exception is caught, and no grain id: one image, no id. *)
Lemma load_npz_files_label_error_misaligned :
  _load_npz_files Examples.dir_bad_label ["grain1_a.npz"] true =
    (([11%Z], None, []), [ErrorLoading "grain1_a.npz"]).
Proof. reflexivity. Qed.

Lemma compute_result_pairs_example :
  ∃ self' r,
    compute_result
      (Ingestion.mk (image := Z) None None None None
         (Some [3%Z; 1%Z; 3%Z]) (Some ["7"; "9"; "5"]) None) = Ok self'
    ∧ ingestion_result self' = Some r
    ∧ num_predictions r = 3%Z
    ∧ result_predictions r !! "7" = Some 3%Z
    ∧ result_predictions r !! "9" = Some 1%Z
    ∧ result_predictions r !! "5" = Some 3%Z.
Proof.
  destruct (compute_result_pairs (image := Z)
              (Ingestion.mk None None None None
                 (Some [3%Z; 1%Z; 3%Z]) (Some ["7"; "9"; "5"]) None)
              ["7"; "9"; "5"] [3%Z; 1%Z; 3%Z] eq_refl eq_refl)
    as (self' & r & Hrun & Hr & Hnum & _ & _ & Hdistinct).
  exists self', r. split; [exact Hrun|]. split; [exact Hr|].
  destruct Hdistinct as [Hsize Hlookup]; [|reflexivity|].
  { compute_done. }
  split; [rewrite Hnum, Hsize; reflexivity|].
  repeat split.
  - exact (Hlookup 0 "7" 3%Z eq_refl eq_refl).
  - exact (Hlookup 1 "9" 1%Z eq_refl eq_refl).
  - exact (Hlookup 2 "5" 3%Z eq_refl eq_refl).
Defined.

(** C4 (as stated) fails. Two test files of grain 7 are loaded, the model
    predicts for both, and the map holds one entry: the second prediction
    has replaced the first. *)
Lemma compute_result_same_grain_twice :
  ∃ loaded out test self' r,
    load_train_and_test_data Ingestion.init Examples.dir_twins
      = (Ok loaded, out)
    ∧ test_data loaded = Some test
    ∧ X test = [71%Z; 72%Z] ∧ grain_ids test = ["7"; "7"]
    ∧ compute_result (predict_submission loaded (λ _, [1%Z; 2%Z])) = Ok self'
    ∧ ingestion_result self' = Some r
    ∧ num_predictions r = 1%Z
    ∧ result_predictions r = {[ "7" := 2%Z ]}.
Proof.
  do 5 eexists. split; [vm_compute; reflexivity|]. simpl.
  split; [reflexivity|]. split; [reflexivity|]. split; [reflexivity|].
  split; [reflexivity|]. simpl. split; [reflexivity|].
  split; vm_compute; reflexivity.
Qed.

End LoadingExamples.

(** * Further properties of the two programs *)

(** ** Scoring: the counters and the record *)

Section ScoreRecordProperties.

Import Scoring.

Implicit Types reference predictions : gmap string Z.

Lemma int_true_div_zero (p : positive) :
  PyFloat.int_true_div 0 (Zpos p) = 0%float.
Proof. reflexivity. Qed.

(** The division of a positive int by itself is exact: quotient [2 ^ 53]
    at exponent [-53], nothing left over. *)
Lemma SFdiv_core_same (p : positive) :
  SFdiv_core_binary prec emax (Zpos p) 0 (Zpos p) 0
  = ((2 ^ 53)%Z, (-53)%Z, loc_Exact).
Proof.
  unfold SFdiv_core_binary.
  replace (Zdigits2 (Z.pos p) + 0 - (Zdigits2 (Z.pos p) + 0))%Z
    with 0%Z by lia.
  change (Z.min (fexp prec emax 0) (0 - 0))%Z with (-53)%Z.
  change (0 - 0 - -53)%Z with 53%Z.
  cbv iota beta zeta.
  rewrite Z.shiftl_mul_pow2 by lia.
  assert (H : Z.div_eucl (Z.pos p * 2 ^ 53) (Z.pos p) = ((2 ^ 53)%Z, 0%Z)).
  { pose proof (Z.div_eucl_eq (Z.pos p * 2 ^ 53) (Z.pos p)) as E.
    pose proof (Z.mod_pos_bound (Z.pos p * 2 ^ 53) (Z.pos p)) as B.
    unfold Z.modulo in B.
    destruct (Z.div_eucl (Z.pos p * 2 ^ 53) (Z.pos p)) as [q r].
    specialize (E ltac:(lia)). specialize (B ltac:(lia)).
    assert (q = 2 ^ 53)%Z by nia. subst q. f_equal. lia. }
  rewrite H. unfold new_location, new_location_even, new_location_odd.
  destruct (Z.even (Z.pos p)); reflexivity.
Qed.

Lemma int_true_div_same (p : positive) :
  PyFloat.int_true_div (Zpos p) (Zpos p) = 1%float.
Proof.
  unfold PyFloat.int_true_div, PyFloat.Z2SF, SFdiv.
  rewrite SFdiv_core_same. reflexivity.
Qed.

(** The predictions split into those with and those without ground
    truth. *)
Lemma size_with_and_without_truth reference predictions :
  size predictions =
    size (filter (λ kv, is_Some (reference !! kv.1)) predictions)
    + size (filter (λ kv, reference !! kv.1 = None) predictions).
Proof.
  rewrite <- (map_filter_union_complement
                (λ kv, is_Some (reference !! kv.1)) predictions) at 1.
  rewrite map_size_disj_union by apply map_disjoint_filter_complement.
  f_equal. f_equal. apply map_filter_ext. intros g p _. simpl.
  rewrite eq_None_not_Some. done.
Qed.

(** X2. The counters of the loop of [compute_scores] are ordered:
    [0 <= correct <= total], [total] is at most the number of predictions
    and at most the number of reference labels, and what is not counted in
    [total] is counted in [missing_ground_truth]. *)
Theorem count_items_bounds reference predictions :
  let c := count_items reference predictions in
  (0 ≤ correct c ≤ total c)%Z
  ∧ (total c ≤ Z.of_nat (size predictions))%Z
  ∧ (total c ≤ Z.of_nat (size reference))%Z
  ∧ (total c + missing_ground_truth c = Z.of_nat (size predictions))%Z.
Proof.
  rewrite count_items_spec. simpl. unfold spec_correct, spec_total.
  assert (size (filter (λ kv, reference !! kv.1 = Some kv.2) predictions)
          ≤ size (filter (λ kv, is_Some (reference !! kv.1)) predictions)).
  { apply map_subseteq_size, map_filter_subseteq_ext.
    intros g p _ Hgp. simpl in *. rewrite Hgp. eauto. }
  assert (size (filter (λ kv, is_Some (reference !! kv.1)) predictions)
          ≤ size predictions)
    by apply map_subseteq_size, map_filter_subseteq.
  assert (size (filter (λ kv, is_Some (reference !! kv.1)) predictions)
          ≤ size reference).
  { rewrite <- !size_dom. apply subseteq_size. intros g.
    rewrite !elem_of_dom. intros [p [_ Hp]%map_lookup_filter_Some]. exact Hp. }
  lia.
Qed.

(** X3. On two loaded, non-empty maps [compute_scores] prints the warning
    about missing ground truth exactly when some predicted grain id is
    absent from the reference map, and the number it prints is the number
    of such ids; it prints nothing else. *)
Theorem compute_scores_warning (self : Scoring.t) reference predictions :
  reference_data self = Some reference →
  ingestion_result self = Some predictions →
  reference ≠ ∅ → predictions ≠ ∅ →
  let missing :=
    size (filter (λ kv, reference !! kv.1 = None) predictions) in
  (compute_scores self).2 =
    (if decide (missing = 0) then []
     else [MissingGroundTruth (Z.of_nat missing)])
  ∧ (missing = 0 ↔ dom predictions ⊆ dom reference).
Proof.
  intros Href Hpred Hr Hp missing. split.
  - unfold compute_scores. rewrite Href, Hpred. simpl.
    rewrite !bool_decide_eq_false_2 by done.
    rewrite count_items_spec. simpl. unfold spec_total.
    pose proof (size_with_and_without_truth reference predictions) as Hsize.
    fold missing in Hsize.
    replace (Z.of_nat (size predictions) -
             Z.of_nat (size (filter (λ kv, is_Some (reference !! kv.1))
                                    predictions)))%Z
      with (Z.of_nat missing) by lia.
    destruct (decide (missing = 0)) as [->|Hne]; [done|].
    destruct (Z.ltb_spec 0 (Z.of_nat missing)); [done|lia].
  - unfold missing. rewrite map_size_empty_iff, map_empty_filter.
    split.
    + intros Hall g. rewrite !elem_of_dom. intros [p Hgp].
      specialize (Hall g p Hgp). simpl in Hall.
      destruct (reference !! g); [eauto|done].
    + intros Hsub g p Hgp. simpl. intros Hnone.
      assert (Hin : g ∈ dom reference) by (apply Hsub, elem_of_dom; eauto).
      apply elem_of_dom in Hin as [v Hv]. congruence.
Qed.

Lemma compute_scores_warning_example :
  (compute_scores (Examples.scoring_with Examples.ex_ref Examples.ex_pred)).2
  = [MissingGroundTruth 1].
Proof.
  destruct (compute_scores_warning
              (Examples.scoring_with Examples.ex_ref Examples.ex_pred)
              Examples.ex_ref Examples.ex_pred eq_refl eq_refl) as [H _].
  - intros E. apply (f_equal (λ m, m !! "7")) in E. vm_compute in E. discriminate.
  - intros E. apply (f_equal (λ m, m !! "7")) in E. vm_compute in E. discriminate.
  - rewrite H. vm_compute. reflexivity.
Defined.

(** X4. When no predicted grain has the variety the reference map gives it
    (be it that the two maps share no id, or that a map is missing or
    empty), the stored [score] is 0.0. When both maps are loaded and
    non-empty the record also holds [correct] 0 and [accuracy_percent]
    0.0; when the prediction map or the reference map is missing or empty
    the record is [{"score": 0.0}] alone, with no [correct] and no
    [accuracy_percent]. *)
Theorem compute_scores_none_right (self : Scoring.t) :
  (∀ reference predictions g p,
     reference_data self = Some reference →
     ingestion_result self = Some predictions →
     predictions !! g = Some p → reference !! g ≠ Some p) →
  let d := scores_dict (compute_scores self).1 in
  d !! "score" = Some (VFloat 0%float)
  ∧ (if falsy (ingestion_result self) || falsy (reference_data self)
     then d = {[ "score" := VFloat 0%float ]}
     else d !! "correct" = Some (VInt 0)
          ∧ d !! "accuracy_percent" = Some (VFloat 0%float)).
Proof.
  intros Hwrong. unfold compute_scores.
  destruct (falsy (ingestion_result self)) eqn:Hp; simpl; [done|].
  destruct (falsy (reference_data self)) eqn:Hr; simpl; [done|].
  destruct (ingestion_result self) as [predictions|] eqn:Hpred; [|done].
  destruct (reference_data self) as [reference|] eqn:Href; [|done].
  simpl. rewrite count_items_spec. simpl.
  assert (Hc : spec_correct reference predictions = 0%Z).
  { unfold spec_correct.
    replace (filter (λ kv, reference !! kv.1 = Some kv.2) predictions)
      with (∅ : gmap string Z); [done|].
    symmetry. apply map_empty_filter. intros g p Hgp. simpl.
    by apply (Hwrong reference predictions). }
  assert (Ha : accuracy_of
                 (mk_counters (spec_correct reference predictions)
                    (spec_total reference predictions)
                    (Z.of_nat (size predictions)
                     - spec_total reference predictions)) = 0%float).
  { unfold accuracy_of. simpl. rewrite Hc.
    destruct (spec_total reference predictions) as [|n|n];
      [done|apply int_true_div_zero|done]. }
  rewrite Ha, Hc. repeat split; by simplify_map_eq.
Qed.

Lemma compute_scores_none_right_example :
  scores_dict
    (compute_scores
       (Examples.scoring_with Examples.ex_ref {[ "9" := 2%Z ]})).1
    !! "correct" = Some (VInt 0)
  ∧ scores_dict
      (compute_scores (Examples.scoring_with Examples.ex_ref ∅)).1
    = {[ "score" := VFloat 0%float ]}.
Proof.
  split.
  - refine (proj1 (proj2 (compute_scores_none_right
             (Examples.scoring_with Examples.ex_ref {[ "9" := 2%Z ]}) _))).
    intros reference predictions g p [= <-] [= <-] Hgp.
    apply lookup_singleton_Some in Hgp as [<- <-]. vm_compute. discriminate.
  - refine (proj2 (compute_scores_none_right
             (Examples.scoring_with Examples.ex_ref ∅) _)).
    intros reference predictions g p [= <-] [= <-] Hgp.
    by rewrite lookup_empty in Hgp.
Defined.

(** X5. When every predicted grain is in the reference map with the
    predicted variety, and there is at least one prediction, the record is
    [score] 1.0, [correct] = [total] = the number of predictions and
    [accuracy_percent] 100.0, whatever the number of reference grains left
    unpredicted; nothing is printed. *)
Theorem compute_scores_all_right (self : Scoring.t) reference predictions :
  reference_data self = Some reference →
  ingestion_result self = Some predictions →
  predictions ≠ ∅ → predictions ⊆ reference →
  compute_scores self =
    (set_scores_dict self
       (<["score" := VFloat 1%float]>
        (<["correct" := VInt (Z.of_nat (size predictions))]>
         (<["total" := VInt (Z.of_nat (size predictions))]>
          {[ "accuracy_percent" := VFloat 100%float ]}))),
     []).
Proof.
  intros Href Hpred Hp Hsub. unfold compute_scores.
  rewrite Href, Hpred. simpl.
  assert (Hr : reference ≠ ∅).
  { intros ->. apply Hp, map_empty. intros g.
    destruct (predictions !! g) as [p|] eqn:Hgp; [|done].
    by apply (lookup_weaken _ _ _ _ Hgp) in Hsub. }
  rewrite !bool_decide_eq_false_2 by done.
  rewrite count_items_spec. simpl.
  assert (Hc : spec_correct reference predictions
               = Z.of_nat (size predictions)).
  { unfold spec_correct. f_equal. f_equal. apply map_filter_id.
    intros g p Hgp. simpl. by apply (lookup_weaken _ _ _ _ Hgp). }
  assert (Ht : spec_total reference predictions
               = Z.of_nat (size predictions)).
  { unfold spec_total. f_equal. f_equal. apply map_filter_id.
    intros g p Hgp. simpl. apply (lookup_weaken _ _ _ _ Hgp) in Hsub. eauto. }
  rewrite Hc, Ht. unfold accuracy_of. simpl.
  assert (Hn : size predictions ≠ 0) by by rewrite map_size_empty_iff.
  destruct (size predictions) as [|n]; [done|]. clear Hn.
  replace (Z.of_nat (S n)) with (Z.pos (Pos.of_succ_nat n)) by lia.
  cbn [Z.ltb Z.compare]. rewrite int_true_div_same.
  replace (Z.pos (Pos.of_succ_nat n) - Z.pos (Pos.of_succ_nat n))%Z
    with 0%Z by lia.
  reflexivity.
Qed.

Lemma compute_scores_all_right_example :
  scores_dict
    (compute_scores
       (Examples.scoring_with Examples.ex_ref {[ "9" := 1%Z ]})).1
    !! "score" = Some (VFloat 1%float).
Proof.
  rewrite (compute_scores_all_right
             (Examples.scoring_with Examples.ex_ref {[ "9" := 1%Z ]})
             Examples.ex_ref {[ "9" := 1%Z ]} eq_refl eq_refl).
  - reflexivity.
  - intros E. apply (f_equal (λ m, m !! "9")) in E. vm_compute in E. discriminate.
  - apply map_subseteq_spec. intros g p Hgp.
    apply lookup_singleton_Some in Hgp as [<- <-]. reflexivity.
Defined.

(** X6. A submission is scored on the grains it predicts only: a
    reference label for a grain that has no prediction changes neither the
    record nor what is printed. *)
Theorem compute_scores_unpredicted_reference
    (self self' : Scoring.t) reference predictions (g : string) (v : Z) :
  reference_data self = Some reference →
  ingestion_result self = Some predictions →
  reference ≠ ∅ →
  predictions !! g = None →
  reference_data self' = Some (<[g:=v]> reference) →
  ingestion_result self' = Some predictions →
  scores_dict (compute_scores self').1 = scores_dict (compute_scores self).1
  ∧ (compute_scores self').2 = (compute_scores self).2.
Proof.
  intros Href Hpred Hr Hg Href' Hpred'. unfold compute_scores.
  rewrite Href, Hpred, Href', Hpred'. simpl.
  destruct (bool_decide (predictions = ∅)); [done|].
  rewrite (bool_decide_eq_false_2 (reference = ∅)) by done.
  rewrite (bool_decide_eq_false_2 (<[g:=v]> reference = ∅))
    by apply insert_non_empty.
  assert (Hsame : count_items (<[g:=v]> reference) predictions
                  = count_items reference predictions).
  { rewrite !count_items_spec. unfold spec_correct, spec_total.
    assert (Hlook : ∀ k p, predictions !! k = Some p →
                      <[g:=v]> reference !! k = reference !! k).
    { intros k p Hk. apply lookup_insert_ne. congruence. }
    f_equal; [f_equal; f_equal|f_equal; f_equal|do 3 f_equal].
    all: apply map_filter_ext; intros k p Hk; simpl;
      by rewrite (Hlook k p Hk). }
  rewrite Hsame. done.
Qed.

Lemma compute_scores_unpredicted_reference_example :
  scores_dict
    (compute_scores
       (Examples.scoring_with (<["4" := 2%Z]> Examples.ex_ref)
                              Examples.ex_pred)).1
  = scores_dict
      (compute_scores
         (Examples.scoring_with Examples.ex_ref Examples.ex_pred)).1.
Proof.
  refine (proj1 (compute_scores_unpredicted_reference
                   (Examples.scoring_with Examples.ex_ref Examples.ex_pred)
                   (Examples.scoring_with (<["4" := 2%Z]> Examples.ex_ref)
                                          Examples.ex_pred)
                   Examples.ex_ref Examples.ex_pred "4" 2%Z
                   eq_refl eq_refl _ _ eq_refl eq_refl)).
  - intros E. apply (f_equal (λ m, m !! "7")) in E. vm_compute in E. discriminate.
  - vm_compute. reflexivity.
Defined.

End ScoreRecordProperties.

(** ** split_by_year.py: the year tag of a filename *)

Section YearTagProperties.

Import SplitByYear.

Local Open Scope string_scope.

Lemma parse_year_from_filename_cons (c : ascii) (rest : string) :
  parse_year_from_filename (String c rest) =
    match match_year (String c rest) with
    | Some year => Some year
    | None => parse_year_from_filename rest
    end.
Proof. reflexivity. Qed.

Lemma match_year_tag (s y : string) :
  match_year s = Some y ↔
  ∃ b, s = "_" ++ y ++ "-" ++ b ∧ is_year_tag y = true.
Proof.
  split.
  - destruct s as [|c0 [|c1 [|c2 [|d1 [|d2 [|c5 b]]]]]]; simpl; try done.
    destruct (Ascii.eqb_spec c0 "_") as [->|]; simpl; [|done].
    destruct (Ascii.eqb_spec c1 "2") as [->|]; simpl; [|done].
    destruct (Ascii.eqb_spec c2 "0") as [->|]; simpl; [|done].
    destruct (is_digit d1) eqn:H1; simpl; [|done].
    destruct (is_digit d2) eqn:H2; simpl; [|done].
    destruct (Ascii.eqb_spec c5 "-") as [->|]; simpl; [|done].
    intros [= <-]. exists b. simpl. by rewrite H1, H2.
  - intros (b & -> & Hy).
    destruct y as [|c1 [|c2 [|d1 [|d2 [|]]]]]; simpl in Hy; try done.
    destruct (Ascii.eqb_spec c1 "2") as [->|]; simpl in Hy; [|done].
    destruct (Ascii.eqb_spec c2 "0") as [->|]; simpl in Hy; [|done].
    destruct (is_digit d1) eqn:H1; simpl in Hy; [|done].
    destruct (is_digit d2) eqn:H2; simpl in Hy; [|done].
    simpl. by rewrite H1, H2.
Qed.

(** X7. [parse_year_from_filename] returns [y] exactly when [_y-] occurs
    in the filename with [y] of the shape [20dd], and no such tag starts
    further left: the first year tag of the name is the one returned. *)
Theorem parse_year_from_filename_first_tag (filename y : string) :
  parse_year_from_filename filename = Some y ↔
  ∃ a b, filename = a ++ "_" ++ y ++ "-" ++ b
         ∧ is_year_tag y = true
         ∧ ∀ a' y' b', filename = a' ++ "_" ++ y' ++ "-" ++ b' →
                       is_year_tag y' = true →
                       (String.length a ≤ String.length a')%nat.
Proof.
  split.
  - induction filename as [|c rest IH].
    + done.
    + rewrite parse_year_from_filename_cons.
      destruct (match_year (String c rest)) as [y0|] eqn:Hm.
      * intros [= ->]. apply match_year_tag in Hm as (b & Hf & Hy).
        exists "", b. split; [done|]. split; [done|]. simpl. lia.
      * intros Hrest. destruct (IH Hrest) as (a & b & -> & Hy & Hleft).
        exists (String c a), b. split; [done|]. split; [done|].
        intros [|c' a'] y' b' Hf Hy'.
        -- assert (match_year (String c (a ++ "_" ++ y ++ "-" ++ b)) = Some y')
             by (apply match_year_tag; eauto).
           congruence.
        -- simpl in Hf. injection Hf as <- Hf.
           specialize (Hleft a' y' b' Hf Hy'). simpl. lia.
  - intros (a & b & -> & Hy & Hleft).
    induction a as [|c a IH].
    + assert (Hm : match_year ("" ++ "_" ++ y ++ "-" ++ b) = Some y)
        by (apply match_year_tag; eauto).
      change ("" ++ "_" ++ y ++ "-" ++ b) with (String "_" (y ++ "-" ++ b)) in *.
      by rewrite parse_year_from_filename_cons, Hm.
    + change (String c a ++ "_" ++ y ++ "-" ++ b)
        with (String c (a ++ "_" ++ y ++ "-" ++ b)) in *.
      rewrite parse_year_from_filename_cons.
      destruct (match_year (String c (a ++ "_" ++ y ++ "-" ++ b)))
        as [y0|] eqn:Hm.
      * apply match_year_tag in Hm as (b0 & Hf & Hy0).
        specialize (Hleft "" y0 b0 Hf Hy0). simpl in Hleft. lia.
      * apply IH. intros a' y' b' Hf Hy'.
        specialize (Hleft (String c a') y' b').
        simpl in Hleft. rewrite Hf in Hleft.
        specialize (Hleft eq_refl Hy'). lia.
Qed.

(** X8. [parse_year_from_filename] returns [None] exactly when the
    filename has no year tag: wherever [_y-] occurs in it, [y] is not [20]
    and two digits. *)
Theorem parse_year_from_filename_no_tag (filename : string) :
  parse_year_from_filename filename = None ↔
  ∀ a y b, filename = a ++ "_" ++ y ++ "-" ++ b → is_year_tag y = false.
Proof.
  split.
  - induction filename as [|c rest IH].
    + intros _ [|??] y b; simpl; discriminate.
    + rewrite parse_year_from_filename_cons.
      destruct (match_year (String c rest)) as [y0|] eqn:Hm; [done|].
      intros Hrest [|c' a] y b Hf.
      * destruct (is_year_tag y) eqn:Hy; [|done].
        assert (match_year (String c rest) = Some y)
          by (apply match_year_tag; eauto).
        congruence.
      * simpl in Hf. injection Hf as <- ->. by apply (IH Hrest a y b).
  - induction filename as [|c rest IH]; intros Hno; [done|].
    rewrite parse_year_from_filename_cons.
    destruct (match_year (String c rest)) as [y0|] eqn:Hm.
    + apply match_year_tag in Hm as (b & Hf & Hy).
      specialize (Hno "" y0 b Hf). congruence.
    + apply IH. intros a y b ->. by apply (Hno (String c a) y b).
Qed.

End YearTagProperties.

(** ** split_by_year.py: paths *)

Section PathProperties.

Import SplitByYear.

Local Open Scope string_scope.

Lemma split_not_nil (sep : ascii) (s : string) : PyStr.split sep s ≠ [].
Proof.
  destruct s as [|c s]; simpl; [done|].
  destruct (Ascii.eqb c sep); [done|]. by destruct (PyStr.split sep s).
Qed.

(** [(a + sep + b).split(sep) == a.split(sep) + b.split(sep)]. *)
Lemma split_app_sep (sep : ascii) (a b : string) :
  PyStr.split sep (a ++ String sep b) =
  (PyStr.split sep a ++ PyStr.split sep b)%list.
Proof.
  induction a as [|c a IH]; simpl.
  - by rewrite Ascii.eqb_refl.
  - rewrite IH. destruct (Ascii.eqb c sep); [done|].
    pose proof (split_not_nil sep a).
    by destruct (PyStr.split sep a).
Qed.

Lemma split_no_sep (sep : ascii) (s : string) :
  PyStr.contains (String sep "") s = false → PyStr.split sep s = [s].
Proof.
  induction s as [|c s IH]; simpl; [done|].
  rewrite andb_true_r. intros [Hc Hs]%orb_false_elim.
  rewrite Hc, (IH Hs). reflexivity.
Qed.

Lemma last_app_not_nil (l1 l2 : list string) (d : string) :
  l2 ≠ [] → List.last (l1 ++ l2) d = List.last l2 d.
Proof.
  intros Hl2. induction l1 as [|x l1 IH]; [done|].
  simpl. rewrite IH. destruct (l1 ++ l2)%list eqn:E; [|done].
  by apply app_eq_nil in E as [_ ?].
Qed.

Lemma basename_app_sep (a b : string) :
  PyStr.contains "/" b = false → basename (a ++ String "/" b) = b.
Proof.
  intros Hb. unfold basename.
  rewrite split_app_sep, last_app_not_nil by apply split_not_nil.
  by rewrite split_no_sep.
Qed.

Lemma string_app_assoc (a b d : string) : a ++ b ++ d = (a ++ b) ++ d.
Proof.
  induction a as [|c a IH]; [done|].
  change (String c (a ++ b ++ d) = String c ((a ++ b) ++ d)). by rewrite IH.
Qed.

Lemma endswith_slash (a : string) :
  PyStr.endswith a "/" = true → ∃ a', a = a' ++ "/".
Proof.
  unfold PyStr.endswith. induction a as [|c a IH]; [done|].
  destruct a as [|c' a].
  - simpl. destruct (Ascii.eqb_spec c "/") as [->|]; [|done].
    intros _. by exists "".
  - intros H. destruct IH as [a' Ha'].
    + revert H. cbn [String.length]. rewrite !andb_true_iff.
      intros [_ H]. split; [done|]. revert H.
      replace (S (S (String.length a)) - 1)%nat
        with (S (S (String.length a) - 1))%nat by lia.
      done.
    + exists (String c a'). simpl. by rewrite Ha'.
Qed.

(** The basename of a joined path is the joined name, when that name has
    no separator in it. *)
Lemma basename_os_path_join (folder nm : string) :
  PyStr.contains "/" nm = false →
  basename (os_path_join folder nm) = nm.
Proof.
  intros Hnm. unfold os_path_join.
  assert (Hstart : PyStr.startswith nm "/" = false).
  { destruct nm as [|c nm]; [done|]. simpl in *.
    by apply orb_false_elim in Hnm as [-> _]. }
  rewrite Hstart.
  destruct (String.length folder =? 0)%nat eqn:Hlen.
  - destruct folder; [|done]. simpl. unfold basename.
    by rewrite split_no_sep.
  - simpl. destruct (PyStr.endswith folder "/") eqn:Hend.
    + apply endswith_slash in Hend as [a' ->].
      rewrite <- string_app_assoc. by apply basename_app_sep.
    + by apply basename_app_sep.
Qed.

(** X9. The paths [iter_npz_files] yields are those of the regular files
    of the folder whose name ends in [.npz], in listing order, and
    [os.path.basename] gives back each entry's name (a directory entry's
    name holds no [/]): the year is parsed from the name of the file, not
    from the folder's. *)
Theorem iter_npz_files_basename (fs : filesystem) (folder : string) :
  Forall (λ e, PyStr.contains "/" (name e) = false) (scandir fs folder) →
  basename <$> iter_npz_files fs folder =
    name <$> List.filter (λ e, is_file e && PyStr.endswith (name e) ".npz")
                         (scandir fs folder).
Proof.
  unfold iter_npz_files. induction 1 as [|e es He _ IH]; [done|].
  cbn [omap list_omap List.filter].
  destruct (is_file e && PyStr.endswith (name e) ".npz"); [|exact IH].
  rewrite !fmap_cons. f_equal; [|exact IH]. by apply basename_os_path_join.
Qed.

End PathProperties.

(** ** split_by_year.py: the split of one directory *)

Section SplitProperties.

Import SplitByYear.

Local Open Scope string_scope.

Implicit Types (fs : filesystem) (src_dir out_strategy mode : string).
Implicit Types (years : option (list string)) (dry_run : bool).
Implicit Types (out_dirs : gmap string string) (targets : gset string).

Lemma iter_npz_files_basename_example :
  basename <$> iter_npz_files SplitExamples.grain_dir "data" =
    [SplitExamples.tagged_2020; SplitExamples.tagged_2021;
     "grain7_untagged.npz"].
Proof.
  rewrite (iter_npz_files_basename SplitExamples.grain_dir "data").
  - reflexivity.
  - repeat constructor.
Defined.

Lemma out_dir_valid src_dir out_strategy :
  out_strategy = "inplace" ∨ out_strategy = "sibling" →
  ∀ y, is_Some (out_dir src_dir out_strategy y).
Proof. intros [->| ->] y; unfold out_dir; simpl; eauto. Qed.

Lemma out_dir_invalid src_dir out_strategy y :
  out_strategy ≠ "inplace" → out_strategy ≠ "sibling" →
  out_dir src_dir out_strategy y = None.
Proof.
  intros H1 H2. unfold out_dir.
  destruct (String.eqb_spec out_strategy "inplace"); [done|].
  by destruct (String.eqb_spec out_strategy "sibling").
Qed.

Lemma sorted_elem_of targets y : y ∈ sorted targets ↔ y ∈ targets.
Proof.
  unfold sorted. by rewrite merge_sort_Permutation, elem_of_elements.
Qed.

Lemma sorted_not_nil targets : targets ≠ ∅ → sorted targets ≠ [].
Proof.
  intros Hne Hnil. apply Hne. apply set_eq. intros y.
  rewrite <- sorted_elem_of, Hnil. set_solver.
Qed.

(** The loop over the years with a valid [out_strategy]: one directory
    per year, in order, and [out_dirs] maps each year to its own. *)
Lemma prepare_out_dirs_valid src_dir out_strategy dry_run ys out_dirs :
  out_strategy = "inplace" ∨ out_strategy = "sibling" →
  ∃ dirs,
    prepare_out_dirs src_dir out_strategy dry_run ys out_dirs =
      (dirs,
       omap (year_events src_dir out_strategy dry_run) ys, Returned)
    ∧ ∀ y, dirs !! y =
             if decide (y ∈ ys) then out_dir src_dir out_strategy y
             else out_dirs !! y.
Proof.
  intros Hvalid. revert out_dirs.
  induction ys as [|y0 ys IH]; intros out_dirs; simpl.
  - by eexists.
  - destruct (out_dir_valid src_dir out_strategy Hvalid y0) as [od Hod].
    unfold year_events at 1. rewrite Hod. simpl.
    destruct (IH (<[y0:=od]> out_dirs)) as (dirs & -> & Hdirs).
    eexists. split; [done|]. intros y. rewrite Hdirs.
    destruct (decide (y ∈ ys)) as [Hin|Hnin].
    + rewrite decide_True; [done|]. by right.
    + destruct (decide (y = y0)) as [->|Hne].
      * rewrite lookup_insert_eq, decide_True; [done|]. left.
      * rewrite lookup_insert_ne by done. rewrite decide_False; [done|].
        by intros [?|?]%elem_of_cons.
Qed.

Lemma action_apply_dry src dst mode :
  action_apply src dst mode true = ([Dry_apply mode src dst], Returned).
Proof. reflexivity. Qed.

Lemma action_apply_known src dst mode dry_run :
  mode = "move" ∨ mode = "copy" ∨ mode = "symlink" →
  ∃ e, action_apply src dst mode dry_run = ([e], Returned)
       ∧ preview e = Dry_apply mode src dst
       ∧ touches_files e = negb dry_run.
Proof.
  intros Hmode. destruct dry_run; [by eexists|].
  destruct Hmode as [->|[->| ->]]; by eexists.
Qed.

Lemma action_apply_unknown src dst mode :
  mode ≠ "move" → mode ≠ "copy" → mode ≠ "symlink" →
  action_apply src dst mode false = ([], ValueError ("Unknown mode: " ++ mode)).
Proof.
  intros H1 H2 H3. unfold action_apply.
  destruct (String.eqb_spec mode "move"); [done|].
  destruct (String.eqb_spec mode "copy"); [done|].
  by destruct (String.eqb_spec mode "symlink").
Qed.

Lemma lookup_destination src_dir out_strategy targets out_dirs f :
  (∀ y, out_dirs !! y =
          if decide (y ∈ targets) then out_dir src_dir out_strategy y
          else None) →
  destination src_dir out_strategy targets f =
    (λ od, os_path_join od (basename f))
      <$> (parse_year_from_filename (basename f) ≫= (out_dirs !!.)).
Proof.
  intros Hdirs. unfold destination.
  destruct (parse_year_from_filename (basename f)) as [y|]; simpl; [|done].
  rewrite Hdirs. destruct (decide (y ∈ targets)); [|done].
  by destruct (out_dir src_dir out_strategy y).
Qed.

(** The second loop where [action_apply] returns: one event per file that
    has a destination; [total] counts the files, [matched] the events. *)
Lemma apply_split_returns src_dir out_strategy mode targets dry_run out_dirs
    files (total matched : Z) :
  (∀ y, out_dirs !! y =
          if decide (y ∈ targets) then out_dir src_dir out_strategy y
          else None) →
  dry_run = true ∨ mode = "move" ∨ mode = "copy" ∨ mode = "symlink" →
  let events :=
    files ≫= file_events src_dir out_strategy mode targets dry_run in
  apply_split out_dirs mode dry_run files total matched =
    (events, Returned, (total + Z.of_nat (length files))%Z,
     (matched + Z.of_nat (length events))%Z).
Proof.
  intros Hdirs Hmode. revert total matched.
  induction files as [|f files IH]; intros total matched.
  - simpl. rewrite !pair_equal_spec. repeat split; lia.
  - cbn [apply_split]. cbn zeta.
    change ((f :: files) ≫= ?g) with ((g f ++ (files ≫= g))%list).
    unfold file_events at 1 3.
    rewrite (lookup_destination _ _ _ out_dirs f Hdirs).
    destruct (parse_year_from_filename (basename f) ≫= (out_dirs !!.))
      as [od|]; simpl.
    + assert (∃ e, action_apply f (os_path_join od (basename f)) mode dry_run
                   = ([e], Returned)) as [e He].
      { destruct Hmode as [->|Hmode]; [by eexists|].
        destruct (action_apply_known f (os_path_join od (basename f)) mode
                    dry_run Hmode) as (e & He & _). eauto. }
      rewrite He, IH. simpl.
      rewrite !pair_equal_spec. repeat split; lia.
    + rewrite IH. rewrite !pair_equal_spec. repeat split; simpl; lia.
Qed.

(** The second loop with an unknown mode, not in a dry run: it raises at
    the first file that has a destination. *)
Lemma apply_split_unknown src_dir out_strategy mode targets out_dirs
    files (total matched : Z) :
  (∀ y, out_dirs !! y =
          if decide (y ∈ targets) then out_dir src_dir out_strategy y
          else None) →
  mode ≠ "move" → mode ≠ "copy" → mode ≠ "symlink" →
  (Exists (λ f, is_Some (destination src_dir out_strategy targets f)) files →
   (apply_split out_dirs mode false files total matched).1.1 =
     ([], ValueError ("Unknown mode: " ++ mode)))
  ∧ (Forall (λ f, destination src_dir out_strategy targets f = None) files →
     apply_split out_dirs mode false files total matched =
       ([], Returned, (total + Z.of_nat (length files))%Z, matched)).
Proof.
  intros Hdirs H1 H2 H3. revert total matched.
  induction files as [|f files IH]; intros total matched.
  - split; [by intros ?%Exists_nil|]. intros _. simpl.
    rewrite !pair_equal_spec. repeat split; lia.
  - cbn [apply_split]. cbn zeta.
    pose proof (lookup_destination _ _ _ out_dirs f Hdirs) as Hdst.
    destruct (parse_year_from_filename (basename f) ≫= (out_dirs !!.))
      as [od|]; simpl in Hdst; cbn beta iota.
    + rewrite action_apply_unknown by done. split; [done|].
      intros Hall. apply Forall_cons in Hall as [Hf _]. congruence.
    + destruct (IH (total + 1)%Z matched) as [IHe IHf]. split.
      * intros [Hf|Hex]%Exists_cons; [|by apply IHe].
        rewrite Hdst in Hf. by destruct Hf.
      * intros [_ Hall]%Forall_cons. rewrite (IHf Hall).
        rewrite !pair_equal_spec. repeat split; simpl; lia.
Qed.

(** A run on an existing directory with a year to split on, a valid
    [out_strategy] and a mode [action_apply] knows (any mode in a dry
    run): the directories, the files, the summary. *)
Lemma split_one_directory_returns fs src_dir out_strategy mode years dry_run :
  isdir fs src_dir = true →
  target_years fs src_dir years ≠ ∅ →
  out_strategy = "inplace" ∨ out_strategy = "sibling" →
  dry_run = true ∨ mode = "move" ∨ mode = "copy" ∨ mode = "symlink" →
  let targets := target_years fs src_dir years in
  let files := iter_npz_files fs src_dir in
  let acts := files ≫= file_events src_dir out_strategy mode targets dry_run in
  split_one_directory fs src_dir out_strategy mode years dry_run =
    ((omap (year_events src_dir out_strategy dry_run) (sorted targets)
      ++ acts
      ++ [Done src_dir (Z.of_nat (length acts)) (Z.of_nat (length files))
               (sorted targets) mode])%list,
     Returned).
Proof.
  intros Hdir Hne Hvalid Hmode targets files acts.
  unfold split_one_directory. rewrite Hdir. cbn [negb].
  rewrite bool_decide_eq_false_2 by done. cbn zeta. fold targets.
  destruct (prepare_out_dirs_valid src_dir out_strategy dry_run
              (sorted targets) ∅ Hvalid) as (dirs & -> & Hdirs).
  rewrite (apply_split_returns src_dir out_strategy mode targets dry_run dirs).
  - reflexivity.
  - intros y. rewrite Hdirs. rewrite lookup_empty.
    destruct (decide (y ∈ targets)).
    + rewrite decide_True; [done|]. by apply sorted_elem_of.
    + rewrite decide_False; [done|]. by rewrite sorted_elem_of.
  - done.
Qed.

Lemma prepare_out_dirs_invalid src_dir out_strategy dry_run ys out_dirs :
  out_strategy ≠ "inplace" → out_strategy ≠ "sibling" → ys ≠ [] →
  prepare_out_dirs src_dir out_strategy dry_run ys out_dirs =
    (out_dirs, [], ValueError "out_strategy must be 'inplace' or 'sibling'").
Proof.
  intros H1 H2 Hys. destruct ys as [|y ys]; [done|]. simpl.
  by rewrite out_dir_invalid.
Qed.

Lemma year_events_dry src_dir out_strategy ys :
  Forall (λ e, touches_files e = false)
         (omap (year_events src_dir out_strategy true) ys).
Proof.
  induction ys as [|y ys IH]; [constructor|]. simpl.
  unfold year_events at 1.
  destruct (out_dir src_dir out_strategy y); simpl; [|done].
  by constructor.
Qed.

Lemma file_events_dry src_dir out_strategy mode targets files :
  Forall (λ e, touches_files e = false)
         (files ≫= file_events src_dir out_strategy mode targets true).
Proof.
  induction files as [|f files IH]; [constructor|].
  change ((f :: files) ≫= ?g) with ((g f ++ (files ≫= g))%list).
  apply Forall_app. split; [|done]. unfold file_events.
  destruct (destination src_dir out_strategy targets f); [|constructor].
  by repeat constructor.
Qed.

(** X10. A dry run changes nothing: whatever the directory, the strategy,
    the mode and the years, none of its events makes a directory or
    moves, copies or links a file. With a valid [out_strategy] it also
    returns normally, even for a mode [action_apply] does not know. *)
Theorem split_one_directory_dry_run fs src_dir out_strategy mode years :
  Forall (λ e, touches_files e = false)
         (split_one_directory fs src_dir out_strategy mode years true).1
  ∧ (out_strategy = "inplace" ∨ out_strategy = "sibling" →
     (split_one_directory fs src_dir out_strategy mode years true).2
     = Returned).
Proof.
  destruct (isdir fs src_dir) eqn:Hdir.
  2:{ unfold split_one_directory. rewrite Hdir. simpl.
      split; [by repeat constructor|done]. }
  destruct (decide (target_years fs src_dir years = ∅)) as [Hnone|Hsome].
  { unfold split_one_directory. rewrite Hdir. simpl.
    rewrite bool_decide_eq_true_2 by done.
    split; [by repeat constructor|done]. }
  destruct (decide (out_strategy = "inplace" ∨ out_strategy = "sibling"))
    as [Hvalid|Hinvalid].
  - rewrite split_one_directory_returns by auto. simpl. split; [|done].
    rewrite !Forall_app. split; [apply year_events_dry|].
    split; [apply file_events_dry|by repeat constructor].
  - unfold split_one_directory. rewrite Hdir. cbn [negb].
    rewrite bool_decide_eq_false_2 by done. cbn zeta.
    assert (out_strategy ≠ "inplace" ∧ out_strategy ≠ "sibling")
      as [H1 H2] by tauto.
    rewrite prepare_out_dirs_invalid by auto using sorted_not_nil.
    split; [constructor|done].
Qed.

(** X11. On an existing directory with a year to split on, an
    [out_strategy] that is neither [inplace] nor [sibling] raises
    [ValueError] before anything is made or printed, in a dry run too. *)
Theorem split_one_directory_bad_strategy
    fs src_dir out_strategy mode years dry_run :
  isdir fs src_dir = true →
  target_years fs src_dir years ≠ ∅ →
  out_strategy ≠ "inplace" → out_strategy ≠ "sibling" →
  split_one_directory fs src_dir out_strategy mode years dry_run =
    ([], ValueError "out_strategy must be 'inplace' or 'sibling'").
Proof.
  intros Hdir Hsome H1 H2. unfold split_one_directory.
  rewrite Hdir. cbn [negb]. rewrite bool_decide_eq_false_2 by done.
  cbn zeta. by rewrite prepare_out_dirs_invalid by auto using sorted_not_nil.
Qed.

Lemma year_events_real src_dir out_strategy (ys : list string) :
  omap (year_events src_dir out_strategy false) ys =
  Makedirs <$> omap (out_dir src_dir out_strategy) ys.
Proof.
  induction ys as [|y ys IH]; [done|]. simpl. unfold year_events at 1.
  destruct (out_dir src_dir out_strategy y); simpl; [f_equal|]; exact IH.
Qed.

(** X12. With a mode [action_apply] does not know, a real run makes the
    year directories first and raises [ValueError] at the first file that
    has a destination, no file being touched and no summary printed; when
    no file has a destination the unknown mode goes unnoticed and the run
    reports 0 matched files. *)
Theorem split_one_directory_unknown_mode fs src_dir out_strategy mode years :
  isdir fs src_dir = true →
  target_years fs src_dir years ≠ ∅ →
  out_strategy = "inplace" ∨ out_strategy = "sibling" →
  mode ≠ "move" → mode ≠ "copy" → mode ≠ "symlink" →
  let targets := target_years fs src_dir years in
  let files := iter_npz_files fs src_dir in
  let made :=
    Makedirs <$> omap (out_dir src_dir out_strategy) (sorted targets) in
  (Exists (λ f, is_Some (destination src_dir out_strategy targets f)) files →
   split_one_directory fs src_dir out_strategy mode years false =
     (made, ValueError ("Unknown mode: " ++ mode)))
  ∧ (Forall (λ f, destination src_dir out_strategy targets f = None) files →
     split_one_directory fs src_dir out_strategy mode years false =
       ((made ++ [Done src_dir 0 (Z.of_nat (length files)) (sorted targets)
                       mode])%list,
        Returned)).
Proof.
  intros Hdir Hsome Hvalid H1 H2 H3 targets files made.
  unfold split_one_directory. rewrite Hdir. cbn [negb].
  rewrite bool_decide_eq_false_2 by done. cbn zeta. fold targets files.
  destruct (prepare_out_dirs_valid src_dir out_strategy false
              (sorted targets) ∅ Hvalid) as (dirs & -> & Hdirs).
  rewrite year_events_real. fold made.
  assert (Hlook : ∀ y, dirs !! y =
            if decide (y ∈ targets) then out_dir src_dir out_strategy y
            else None).
  { intros y. rewrite Hdirs, lookup_empty.
    destruct (decide (y ∈ targets)).
    - rewrite decide_True; [done|]. by apply sorted_elem_of.
    - rewrite decide_False; [done|]. by rewrite sorted_elem_of. }
  destruct (apply_split_unknown src_dir out_strategy mode targets dirs files
              0 0 Hlook H1 H2 H3) as [Hraise Hquiet].
  split.
  - intros Hex. specialize (Hraise Hex).
    destruct (apply_split dirs mode false files 0 0) as [[[ev o] t] m].
    simpl in Hraise. injection Hraise as -> ->. by rewrite app_nil_r.
  - intros Hall. rewrite (Hquiet Hall). simpl. done.
Qed.

Lemma elem_of_year_events src_dir out_strategy (ys : list string) od :
  Makedirs od ∈ omap (year_events src_dir out_strategy false) ys ↔
  ∃ y, y ∈ ys ∧ out_dir src_dir out_strategy y = Some od.
Proof.
  rewrite year_events_real, list_elem_of_fmap. split.
  - intros (od' & [= <-] & (y & Hy & Hod)%list_elem_of_omap). eauto.
  - intros (y & Hy & Hod). exists od. split; [done|].
    apply list_elem_of_omap. eauto.
Qed.

Lemma file_event_not_year_event src_dir out_strategy mode
    (ys : list string) f dst e :
  mode = "move" ∨ mode = "copy" ∨ mode = "symlink" →
  (action_apply f dst mode false).1 = [e] →
  e ∉ omap (year_events src_dir out_strategy false) ys.
Proof.
  intros Hmode He. rewrite year_events_real, list_elem_of_fmap.
  intros (od & -> & _).
  destruct Hmode as [->|[->| ->]]; discriminate.
Qed.

Lemma action_apply_inj mode f dst f' dst' :
  mode = "move" ∨ mode = "copy" ∨ mode = "symlink" →
  (action_apply f dst mode false).1 = (action_apply f' dst' mode false).1 →
  f = f' ∧ dst = dst'.
Proof. intros [->|[->| ->]] [= -> ->]; done. Qed.

Lemma elem_of_file_events src_dir out_strategy mode targets files f dst e :
  mode = "move" ∨ mode = "copy" ∨ mode = "symlink" →
  (action_apply f dst mode false).1 = [e] →
  e ∈ files ≫= file_events src_dir out_strategy mode targets false ↔
  f ∈ files ∧ destination src_dir out_strategy targets f = Some dst.
Proof.
  intros Hmode He. rewrite list_elem_of_bind. unfold file_events. split.
  - intros (f' & Hin & Hf').
    destruct (destination src_dir out_strategy targets f') as [dst'|] eqn:Hd;
      [|by apply elem_of_nil in Hin].
    destruct (action_apply_known f' dst' mode false Hmode) as (e' & He' & _).
    rewrite He' in Hin. simpl in Hin. apply list_elem_of_singleton in Hin as ->.
    destruct (action_apply_inj mode f dst f' dst' Hmode) as [-> ->];
      [by rewrite He, He'|done].
  - intros [Hf Hd]. exists f. split; [|done]. rewrite Hd, He. left.
Qed.

Lemma makedirs_not_file_event src_dir out_strategy mode targets files od :
  mode = "move" ∨ mode = "copy" ∨ mode = "symlink" →
  Makedirs od ∉ files ≫= file_events src_dir out_strategy mode targets false.
Proof.
  intros Hmode. rewrite list_elem_of_bind. unfold file_events.
  intros (f & Hin & _).
  destruct (destination src_dir out_strategy targets f) as [dst|];
    [|by apply elem_of_nil in Hin].
  destruct Hmode as [->|[->| ->]]; simpl in Hin;
    by apply list_elem_of_singleton in Hin.
Qed.

Lemma length_file_events src_dir out_strategy mode targets dry_run files :
  dry_run = true ∨ mode = "move" ∨ mode = "copy" ∨ mode = "symlink" →
  length (files ≫= file_events src_dir out_strategy mode targets dry_run) =
  length (filter (λ f, is_Some (destination src_dir out_strategy targets f))
                 files).
Proof.
  intros Hmode. induction files as [|f files IH]; [done|].
  change ((f :: files) ≫= ?g) with ((g f ++ (files ≫= g))%list).
  rewrite length_app, IH. unfold file_events.
  destruct (destination src_dir out_strategy targets f) as [dst|] eqn:Hd.
  - rewrite filter_cons_True by (rewrite Hd; eauto).
    assert (∃ e, action_apply f dst mode dry_run = ([e], Returned))
      as [e ->]; [|done].
    destruct Hmode as [->|Hmode]; [by eexists|].
    destruct (action_apply_known f dst mode dry_run Hmode) as (e & ? & _).
    eauto.
  - rewrite filter_cons_False by (rewrite Hd; by intros [??]). done.
Qed.

(** X13. A real run with a valid strategy and a known mode returns. It
    makes the output directory of every target year and no other; it
    applies the mode to a file exactly when the file is a regular [.npz]
    file of the directory whose first year tag is a target, and then the
    destination is the file's basename under the directory of that year.
    The summary counts these files as matched and all [.npz] files as
    total. *)
Theorem split_one_directory_places_by_year
    fs src_dir out_strategy mode years :
  isdir fs src_dir = true →
  target_years fs src_dir years ≠ ∅ →
  out_strategy = "inplace" ∨ out_strategy = "sibling" →
  mode = "move" ∨ mode = "copy" ∨ mode = "symlink" →
  let targets := target_years fs src_dir years in
  let files := iter_npz_files fs src_dir in
  ∃ events matched,
    split_one_directory fs src_dir out_strategy mode years false =
      ((events ++ [Done src_dir matched (Z.of_nat (length files))
                        (sorted targets) mode])%list,
       Returned)
    ∧ matched =
        Z.of_nat
          (length
             (filter (λ f, is_Some (destination src_dir out_strategy targets f))
                     files))
    ∧ (0 ≤ matched ≤ Z.of_nat (length files))%Z
    ∧ (∀ od, Makedirs od ∈ events ↔
             ∃ y, y ∈ targets ∧ out_dir src_dir out_strategy y = Some od)
    ∧ (∀ f dst e, (action_apply f dst mode false).1 = [e] →
         e ∈ events ↔
         f ∈ files ∧ destination src_dir out_strategy targets f = Some dst).
Proof.
  intros Hdir Hsome Hvalid Hmode targets files.
  rewrite split_one_directory_returns by auto. fold targets files.
  rewrite app_assoc. do 2 eexists. split; [reflexivity|].
  rewrite length_file_events by auto.
  split; [reflexivity|]. split.
  { pose proof (length_filter
      (λ f, is_Some (destination src_dir out_strategy targets f)) files).
    lia. }
  split.
  - intros od. rewrite elem_of_app, elem_of_year_events. split.
    + intros [(y & Hy & Hod)|Hin].
      * exists y. by rewrite <- sorted_elem_of.
      * by apply makedirs_not_file_event in Hin.
    + intros (y & Hy & Hod). left. exists y. by rewrite sorted_elem_of.
  - intros f dst e He. rewrite elem_of_app.
    rewrite (elem_of_file_events _ _ _ _ _ f dst e Hmode He). split.
    + intros [Hin|Hin]; [|done].
      by apply (file_event_not_year_event _ _ mode _ f dst e) in Hin.
    + by right.
Qed.

Lemma elem_of_detected_years fs src_dir y :
  y ∈ detected_years fs src_dir ↔
  ∃ f, f ∈ iter_npz_files fs src_dir
       ∧ parse_year_from_filename (basename f) = Some y.
Proof.
  unfold detected_years. by rewrite elem_of_list_to_set, list_elem_of_omap.
Qed.

(** X14. When the years are detected ([years] is [None]), a real run
    with a valid strategy and a known mode leaves no tagged file behind
    and makes no empty directory: every [.npz] file with a year tag is
    put under the directory made for its year, and every directory the
    run makes receives a file. *)
Theorem split_one_directory_auto_detect fs src_dir out_strategy mode :
  isdir fs src_dir = true →
  out_strategy = "inplace" ∨ out_strategy = "sibling" →
  mode = "move" ∨ mode = "copy" ∨ mode = "symlink" →
  let files := iter_npz_files fs src_dir in
  Exists (λ f, is_Some (parse_year_from_filename (basename f))) files →
  ∃ events,
    split_one_directory fs src_dir out_strategy mode None false =
      (events, Returned)
    ∧ (∀ f y, f ∈ files → parse_year_from_filename (basename f) = Some y →
         ∃ od e, out_dir src_dir out_strategy y = Some od
                 ∧ Makedirs od ∈ events
                 ∧ (action_apply f (os_path_join od (basename f)) mode
                                 false).1 = [e]
                 ∧ e ∈ events)
    ∧ (∀ od, Makedirs od ∈ events →
         ∃ f e, f ∈ files
                ∧ (action_apply f (os_path_join od (basename f)) mode
                                false).1 = [e]
                ∧ e ∈ events).
Proof.
  intros Hdir Hvalid Hmode files Hex.
  assert (Hsome : target_years fs src_dir None ≠ ∅).
  { apply Exists_exists in Hex as (f & Hf & [y Hy]).
    simpl. intros Hempty.
    assert (Hy' : y ∈ detected_years fs src_dir)
      by (apply elem_of_detected_years; eauto).
    rewrite Hempty in Hy'. by apply not_elem_of_empty in Hy'. }
  rewrite split_one_directory_returns by auto. cbn [target_years].
  fold files. eexists. split; [reflexivity|].
  assert (Hplace : ∀ f y, f ∈ files →
            parse_year_from_filename (basename f) = Some y →
            ∃ od e, out_dir src_dir out_strategy y = Some od
              ∧ destination src_dir out_strategy (detected_years fs src_dir) f
                = Some (os_path_join od (basename f))
              ∧ (action_apply f (os_path_join od (basename f)) mode false).1
                = [e]).
  { intros f y Hf Hy.
    destruct (out_dir_valid src_dir out_strategy Hvalid y) as [od Hod].
    destruct (action_apply_known f (os_path_join od (basename f)) mode false
                Hmode) as (e & He & _).
    exists od, e. split; [done|]. split; [|by rewrite He].
    unfold destination. rewrite Hy. simpl.
    rewrite decide_True by (apply elem_of_detected_years; eauto).
    by rewrite Hod. }
  split.
  - intros f y Hf Hy. destruct (Hplace f y Hf Hy) as (od & e & Hod & Hd & He).
    exists od, e. split; [done|]. split; [|split; [done|]].
    + apply elem_of_app. left. apply elem_of_year_events.
      exists y. split; [|done]. apply sorted_elem_of.
      apply elem_of_detected_years. eauto.
    + apply elem_of_app. right. apply elem_of_app. left.
      by apply (elem_of_file_events _ _ _ _ _ f
                  (os_path_join od (basename f)) e Hmode He).
  - intros od [Hin|[Hin|Hin]%elem_of_app]%elem_of_app.
    + apply elem_of_year_events in Hin as (y & Hy & Hod).
      apply sorted_elem_of, elem_of_detected_years in Hy as (f & Hf & Hy).
      destruct (Hplace f y Hf Hy) as (od' & e & Hod' & Hd & He).
      assert (od' = od) as -> by congruence.
      exists f, e. split; [done|]. split; [done|].
      apply elem_of_app. right. apply elem_of_app. left.
      by apply (elem_of_file_events _ _ _ _ _ f
                  (os_path_join od (basename f)) e Hmode He).
    + by apply makedirs_not_file_event in Hin.
    + by apply list_elem_of_singleton in Hin.
Qed.

Lemma preview_year_events src_dir out_strategy (ys : list string) :
  preview <$> omap (year_events src_dir out_strategy false) ys =
  omap (year_events src_dir out_strategy true) ys.
Proof.
  induction ys as [|y ys IH]; [done|]. simpl. unfold year_events.
  destruct (out_dir src_dir out_strategy y); simpl; [f_equal|]; exact IH.
Qed.

Lemma preview_file_events src_dir out_strategy mode targets files :
  mode = "move" ∨ mode = "copy" ∨ mode = "symlink" →
  preview <$> (files ≫= file_events src_dir out_strategy mode targets false) =
  files ≫= file_events src_dir out_strategy mode targets true.
Proof.
  intros Hmode. induction files as [|f files IH]; [done|].
  change ((f :: files) ≫= ?g) with ((g f ++ (files ≫= g))%list).
  rewrite fmap_app, IH. f_equal. unfold file_events.
  destruct (destination src_dir out_strategy targets f) as [dst|]; [|done].
  destruct (action_apply_known f dst mode false Hmode) as (e & -> & He & _).
  simpl. by rewrite He.
Qed.

(** X15. A dry run is a faithful preview: with a mode [action_apply]
    knows, it prints one line for each directory a real run would make
    and for each file a real run would move, copy or link, in the same
    order and with the same paths, prints the same messages and summary,
    and ends as the real run ends. *)
Theorem split_one_directory_dry_run_previews
    fs src_dir out_strategy mode years :
  mode = "move" ∨ mode = "copy" ∨ mode = "symlink" →
  split_one_directory fs src_dir out_strategy mode years true =
    (preview <$> (split_one_directory fs src_dir out_strategy mode years
                                      false).1,
     (split_one_directory fs src_dir out_strategy mode years false).2).
Proof.
  intros Hmode. destruct (isdir fs src_dir) eqn:Hdir.
  2:{ unfold split_one_directory. by rewrite Hdir. }
  destruct (decide (target_years fs src_dir years = ∅)) as [Hnone|Hsome].
  { unfold split_one_directory. rewrite Hdir. simpl.
    by rewrite bool_decide_eq_true_2. }
  destruct (decide (out_strategy = "inplace" ∨ out_strategy = "sibling"))
    as [Hvalid|Hinvalid].
  - rewrite !split_one_directory_returns by auto. simpl.
    rewrite !fmap_app, preview_year_events, preview_file_events by done.
    rewrite !length_file_events by auto. reflexivity.
  - unfold split_one_directory. rewrite Hdir. cbn [negb].
    rewrite bool_decide_eq_false_2 by done. cbn zeta.
    assert (out_strategy ≠ "inplace" ∧ out_strategy ≠ "sibling")
      as [H1 H2] by tauto.
    by rewrite !prepare_out_dirs_invalid by auto using sorted_not_nil.
Qed.

Lemma split_one_directory_outcome fs src_dir out_strategy mode years dry_run :
  out_strategy = "inplace" ∨ out_strategy = "sibling" →
  dry_run = true ∨ mode = "move" ∨ mode = "copy" ∨ mode = "symlink" →
  (split_one_directory fs src_dir out_strategy mode years dry_run).2
  = Returned.
Proof.
  intros Hvalid Hmode. destruct (isdir fs src_dir) eqn:Hdir.
  2:{ unfold split_one_directory. by rewrite Hdir. }
  destruct (decide (target_years fs src_dir years = ∅)) as [Hnone|Hsome].
  { unfold split_one_directory. rewrite Hdir. simpl.
    by rewrite bool_decide_eq_true_2. }
  by rewrite split_one_directory_returns.
Qed.

(** X16. With the choices [parse_args] enforces ([--out-strategy] one of
    [inplace], [sibling]; [--mode] one of [symlink], [copy], [move]),
    [main] goes through all the directories and never raises
    [ValueError]. *)
Theorem main_returns fs (a : args) :
  arg_out_strategy a = "inplace" ∨ arg_out_strategy a = "sibling" →
  arg_mode a = "symlink" ∨ arg_mode a = "copy" ∨ arg_mode a = "move" →
  (main fs a).2 = Returned.
Proof.
  intros Hvalid Hmode. unfold main.
  induction (dirs a) as [|d ds IH]; [done|]. simpl.
  pose proof (split_one_directory_outcome fs d (arg_out_strategy a)
                (arg_mode a)
                match arg_years a with
                | Some (y :: ys) => Some (y :: ys)
                | _ => None
                end (arg_dry_run a) Hvalid) as Hd.
  destruct (split_one_directory fs d _ _ _ _) as [events o].
  simpl in Hd. rewrite Hd by tauto.
  by destruct (split_directories fs a ds).
Qed.

(** X17. Whatever the strategy and the mode, even invalid ones, and in a
    dry run or not: a directory that does not exist gets a warning only;
    an existing directory none of whose [.npz] files has a year tag, with
    no years asked for, gets the information line only. Nothing is made,
    nothing is raised. *)
Theorem split_one_directory_nothing_to_do
    fs src_dir out_strategy mode years dry_run :
  isdir fs src_dir = false
  ∨ ((years = None ∨ years = Some [])
     ∧ Forall (λ f, parse_year_from_filename (basename f) = None)
              (iter_npz_files fs src_dir)) →
  split_one_directory fs src_dir out_strategy mode years dry_run =
    (if isdir fs src_dir then [Info_no_year src_dir]
     else [Warn_skipping src_dir],
     Returned).
Proof.
  intros [Hdir|[Hyears Hall]]; unfold split_one_directory.
  - by rewrite Hdir.
  - destruct (isdir fs src_dir); [|done]. cbn [negb].
    rewrite bool_decide_eq_true_2; [done|].
    assert (target_years fs src_dir years = detected_years fs src_dir)
      as -> by (by destruct Hyears as [->| ->]).
    apply set_eq. intros y. rewrite elem_of_detected_years.
    split; [|set_solver]. intros (f & Hf & Hy).
    rewrite Forall_forall in Hall.
    specialize (Hall f Hf). congruence.
Qed.

(** The directory of the examples has files of two years. *)
Lemma grain_dir_has_years years :
  target_years SplitExamples.grain_dir "data" years ≠ ∅.
Proof.
  destruct years as [[|y ys]|]; simpl.
  - intros E%(f_equal elements). vm_compute in E. discriminate.
  - intros E. assert (Hy : y ∈ (∅ : gset string)); [|by apply not_elem_of_empty in Hy].
    rewrite <- E. apply elem_of_union. left. by apply elem_of_singleton.
  - intros E%(f_equal elements). vm_compute in E. discriminate.
Defined.

Lemma split_one_directory_bad_strategy_example :
  split_one_directory SplitExamples.grain_dir "data" "flat" "copy" None true =
    ([], ValueError "out_strategy must be 'inplace' or 'sibling'").
Proof.
  apply split_one_directory_bad_strategy;
    [reflexivity|apply grain_dir_has_years|discriminate|discriminate].
Defined.

Lemma split_one_directory_unknown_mode_example :
  split_one_directory SplitExamples.grain_dir "data" "inplace" "hardlink"
                      None false =
    ([Makedirs "data/2020"; Makedirs "data/2021"],
     ValueError "Unknown mode: hardlink").
Proof.
  destruct (split_one_directory_unknown_mode SplitExamples.grain_dir "data"
              "inplace" "hardlink" None eq_refl (grain_dir_has_years None)
              (or_introl eq_refl)) as [H _]; [discriminate..|].
  rewrite H.
  - vm_compute. reflexivity.
  - apply Exists_cons_hd. vm_compute. eauto.
Defined.

Lemma split_one_directory_places_by_year_example :
  ∃ events,
    split_one_directory SplitExamples.grain_dir "data" "inplace" "copy"
                        None false =
      ((events ++ [Done "data" 2 3 ["2020"; "2021"] "copy"])%list, Returned).
Proof.
  destruct (split_one_directory_places_by_year SplitExamples.grain_dir "data"
              "inplace" "copy" None eq_refl (grain_dir_has_years None)
              (or_introl eq_refl) (or_intror (or_introl eq_refl)))
    as (events & matched & H & -> & _).
  exists events. rewrite H. vm_compute. reflexivity.
Defined.

Lemma split_one_directory_auto_detect_example :
  ∃ events,
    split_one_directory SplitExamples.grain_dir "data" "sibling" "move"
                        None false = (events, Returned)
    ∧ Makedirs "data-2021" ∈ events.
Proof.
  destruct (split_one_directory_auto_detect SplitExamples.grain_dir "data"
              "sibling" "move" eq_refl (or_intror eq_refl)
              (or_introl eq_refl)) as (events & H & Hplaced & _).
  - apply Exists_cons_hd. vm_compute. eauto.
  - exists events. split; [exact H|].
    destruct (Hplaced (os_path_join "data" SplitExamples.tagged_2021) "2021")
      as (od & e & Hod & Hin & _).
    + right. left.
    + vm_compute. reflexivity.
    + vm_compute in Hod. injection Hod as <-. exact Hin.
Defined.

Lemma split_one_directory_dry_run_previews_example :
  split_one_directory SplitExamples.grain_dir "data" "sibling" "move"
                      (Some ["2021"]) true =
    (preview <$> (split_one_directory SplitExamples.grain_dir "data" "sibling"
                                      "move" (Some ["2021"]) false).1,
     Returned).
Proof.
  rewrite (split_one_directory_dry_run_previews SplitExamples.grain_dir "data"
             "sibling" "move" (Some ["2021"]) (or_introl eq_refl)).
  vm_compute. reflexivity.
Defined.

Lemma main_returns_example :
  (main SplitExamples.grain_dir
        (mk_args ["data"; "elsewhere"] "inplace" "symlink" None false)).2
  = Returned.
Proof.
  apply main_returns; simpl; [by left|by left].
Defined.

Lemma split_one_directory_nothing_to_do_example :
  split_one_directory SplitExamples.untagged_dir "data" "flat" "hardlink"
                      None false = ([Info_no_year "data"], Returned).
Proof.
  apply (split_one_directory_nothing_to_do SplitExamples.untagged_dir "data"
           "flat" "hardlink" None false).
  right. split; [by left|]. repeat constructor.
Defined.

End SplitProperties.

(** ** Ingestion: invariants of the loading and of the whole run *)

Section IngestionInvariants.

Import Ingestion.

Context {image : Type}.

Implicit Types (d : directory image) (acc : loaded image).
Implicit Types (filenames ids : list string) (preds : list Z).

Lemma load_files_snoc d load_labels filenames f :
  load_files d load_labels (filenames ++ [f]) =
  load_file d load_labels (load_files d load_labels filenames) f.
Proof. unfold load_files. by rewrite foldl_snoc. Qed.

(** X18. Whatever [load_labels] is, the lists [_load_npz_files] fills
    never hold more grain ids than images nor more labels than grain ids;
    an image without a grain id belongs to a file reported as failed; and
    every file that exists gives either a grain id or an error line,
    never both and never none. *)
Theorem load_files_invariants d (load_labels : bool) filenames :
  let l := load_files d load_labels filenames in
  length (ids_list l) ≤ length (X_list l)
  ∧ length (X_list l) ≤ length (ids_list l) + length (printed l)
  ∧ length (y_list l) ≤ length (ids_list l)
  ∧ length (ids_list l) + length (printed l) =
      length (filter (λ f, path_exists d f = true) filenames).
Proof.
  induction filenames as [|f filenames IH] using rev_ind.
  - simpl. lia.
  - rewrite load_files_snoc, filter_app. cbn zeta in IH |- *.
    destruct IH as (IH1 & IH2 & IH3 & IH4). rewrite length_app, <- IH4.
    clear IH4. unfold load_file.
    destruct (path_exists d f) eqn:Hex.
    2:{ rewrite filter_cons_False by congruence. simpl. lia. }
    rewrite filter_cons_True by done.
    destruct (np_load d f) as [file|]; simpl; [|rewrite ?length_app; simpl; lia].
    destruct (data_x file) as [x|]; simpl; [|rewrite ?length_app; simpl; lia].
    destruct (load_labels && has_y file); simpl; [destruct (data_y file)|];
      simpl; rewrite ?length_app; simpl; lia.
Qed.

(** X19. With the manifest present, the diagnostics of
    [load_train_and_test_data] are exactly: one error line for each listed
    file and each test file that exists and fails to load, and the notice
    that no separate test file was found when that is so. A run in which
    every file loads and some test file exists prints none. *)
Theorem load_train_and_test_data_messages (self : t image) d :
  path_exists d "input_data.csv" = true →
  ∀ m, m ∈ (load_train_and_test_data self d).2 ↔
       (m = NoSeparateTestFiles ∧ test_files d = [])
       ∨ (∃ f, m = ErrorLoading f ∧ load_error d f
               ∧ (f ∈ (read_csv d).*1 ∨ f ∈ test_files d)).
Proof.
  intros Hcsv m. rewrite (load_train_and_test_data_ok self d Hcsv). simpl.
  rewrite elem_of_app, list_elem_of_fmap.
  setoid_rewrite list_elem_of_filter.
  destruct (test_files d) as [|t ts] eqn:Htest.
  - rewrite list_elem_of_singleton. split.
    + intros [(f & -> & Herr & Hin)| ->]; [right|left; done].
      exists f. auto.
    + intros [[-> _]|(f & -> & Herr & [Hin|Hin])]; [by right| |].
      * left. eauto.
      * by apply elem_of_nil in Hin.
  - rewrite list_elem_of_fmap. setoid_rewrite list_elem_of_filter. split.
    + intros [(f & -> & Herr & Hin)|(f & -> & Herr & Hin)];
        right; exists f; auto.
    + intros [[_ ?]|(f & -> & Herr & [Hin|Hin])]; [done| |].
      * left. eauto.
      * right. eauto.
Qed.

(** X20. What [load_train_and_test_data] stores is aligned: as many grain
    ids as images in the training set and in the test set, no more
    training images than rows of the manifest, and [test_grain_ids] is the
    list of grain ids of [test_data]. The timer readings, the predictions
    and the result stay as they were. *)
Theorem load_train_and_test_data_aligned (self : t image) d :
  path_exists d "input_data.csv" = true →
  ∃ self' out train test,
    load_train_and_test_data self d = (Ok self', out)
    ∧ train_data self' = Some train ∧ test_data self' = Some test
    ∧ length (grain_ids train) = length (X train)
    ∧ length (grain_ids test) = length (X test)
    ∧ length (X train) ≤ length (read_csv d)
    ∧ test_grain_ids self' = Some (grain_ids test)
    ∧ start_time self' = start_time self ∧ end_time self' = end_time self
    ∧ predictions self' = predictions self
    ∧ ingestion_result self' = ingestion_result self.
Proof.
  intros Hcsv. rewrite (load_train_and_test_data_ok self d Hcsv).
  do 4 eexists. split; [reflexivity|]. simpl.
  split; [reflexivity|]. split; [reflexivity|]. simpl.
  split; [by rewrite length_fmap, length_omap_filter|].
  split.
  { destruct (test_files d); by rewrite length_fmap, length_omap_filter. }
  split.
  { rewrite length_omap_filter.
    rewrite <- (length_fmap fst (read_csv d)). apply length_filter. }
  done.
Qed.

Lemma zip_to_dict_lookup_Some ids preds g p :
  zip_to_dict ids preds !! g = Some p →
  ∃ i, ids !! i = Some g ∧ preds !! i = Some p.
Proof.
  rewrite zip_to_dict_list_to_map.
  intros Hin%elem_of_list_to_map_2. rewrite elem_of_reverse in Hin.
  apply list_elem_of_lookup in Hin as [i Hi].
  apply lookup_zip_with_Some in Hi as (g' & p' & [= <- <-] & Hg & Hp).
  eauto.
Qed.

Lemma size_zip_to_dict_le ids preds :
  size (zip_to_dict ids preds) ≤ length ids `min` length preds.
Proof.
  unfold zip_to_dict. rewrite <- (length_zip_with pair ids preds).
  generalize (zip ids preds) as l.
  induction l as [|[g p] l IH] using rev_ind; [done|].
  rewrite foldl_snoc, length_app, map_size_insert. simpl.
  destruct (_ !! g); simpl; lia.
Qed.

(** X21. The whole run, for a model whose [predict] is a function of the
    test data that returns a sequence of ints (so that [int(pred)] is
    defined) and leaves the test data it is given as it is: after
    [load_train_and_test_data] with the manifest present and
    [predict_submission], [compute_result] returns; [num_predictions] is
    at most the number of test images and at most the number of
    predictions, and every entry of the map pairs the grain id of a test
    sample with the prediction at the same position. A model that returns
    something else, or that changes [test_data], is outside this
    statement. *)
Theorem run_result_from_test_samples (self : t image) d
    (predict : option (data image) → list Z) :
  path_exists d "input_data.csv" = true →
  ∃ self1 out test self3 r,
    load_train_and_test_data self d = (Ok self1, out)
    ∧ test_data self1 = Some test
    ∧ compute_result (predict_submission self1 predict) = Ok self3
    ∧ ingestion_result self3 = Some r
    ∧ (0 ≤ num_predictions r ≤ Z.of_nat (length (X test)))%Z
    ∧ (num_predictions r ≤ Z.of_nat (length (predict (Some test))))%Z
    ∧ ∀ g p, result_predictions r !! g = Some p →
             ∃ i, grain_ids test !! i = Some g
                  ∧ predict (Some test) !! i = Some p.
Proof.
  intros Hcsv. rewrite (load_train_and_test_data_ok self d Hcsv).
  do 5 eexists. split; [reflexivity|]. simpl. split; [reflexivity|].
  unfold compute_result, predict_submission. simpl.
  split; [reflexivity|]. simpl. split; [reflexivity|]. simpl.
  match goal with
  | |- context [zip_to_dict ?ids ?preds] =>
      pose proof (size_zip_to_dict_le ids preds) as Hsize;
      assert (Hlen : length ids =
                     length (match test_files d with
                             | [] => omap (image_of d) (read_csv d).*1
                             | _ :: _ => omap (image_of d) (test_files d)
                             end))
  end.
  { destruct (test_files d); by rewrite length_fmap, length_omap_filter. }
  split; [lia|]. split; [lia|].
  intros g p. apply zip_to_dict_lookup_Some.
Qed.

End IngestionInvariants.

Section IngestionExamples.

Import Ingestion.

Lemma load_train_and_test_data_messages_example :
  ErrorLoading "grain2_b.npz"
  ∈ (load_train_and_test_data Ingestion.init Examples.dir_broken).2.
Proof.
  apply (load_train_and_test_data_messages (image := Z)
           Ingestion.init Examples.dir_broken eq_refl).
  right. exists "grain2_b.npz". split; [reflexivity|].
  split; [split; reflexivity|]. left. cbn. rewrite !elem_of_cons. auto.
Defined.

Lemma load_train_and_test_data_aligned_example :
  ∃ self' out test,
    load_train_and_test_data Ingestion.init Examples.dir_split = (Ok self', out)
    ∧ test_data self' = Some test
    ∧ length (grain_ids test) = length (X test)
    ∧ test_grain_ids self' = Some (grain_ids test).
Proof.
  destruct (load_train_and_test_data_aligned (image := Z)
              Ingestion.init Examples.dir_split eq_refl)
    as (self' & out & train & test & Hrun & _ & Htest & _ & Hlen & _ & Hids & _).
  exists self', out, test. auto.
Defined.

Lemma run_result_from_test_samples_example :
  ∃ self1 out test self3 r,
    load_train_and_test_data Ingestion.init Examples.dir_twins = (Ok self1, out)
    ∧ test_data self1 = Some test
    ∧ compute_result (predict_submission self1 (λ _, [3%Z; 4%Z])) = Ok self3
    ∧ ingestion_result self3 = Some r
    ∧ (num_predictions r ≤ 2)%Z.
Proof.
  destruct (run_result_from_test_samples (image := Z)
              Ingestion.init Examples.dir_twins (λ _, [3%Z; 4%Z]) eq_refl)
    as (self1 & out & test & self3 & r & Hrun & Htest & Hres & Hr & _ & Hle & _).
  exists self1, out, test, self3, r. auto.
Defined.

End IngestionExamples.

(** ** The files between the two programs *)

Section RoundTripProperties.

Local Open Scope string_scope.

Lemma path_join_inj (dir a b : string) :
  path_join dir a = path_join dir b → a = b.
Proof.
  unfold path_join. destruct dir as [|c dir]; [done|].
  destruct (PyStr.endswith (String c dir) "/"); intros H.
  - by apply (inj (String.app (String c dir))) in H.
  - apply (inj (String.app (String c dir))) in H.
    by apply (inj (String.app "/")) in H.
Qed.

(** The dict read from the object written for a dict is that dict, value
    by value. *)
Lemma json_dict_of_items {A} (f : A → json) (m : gmap string A) :
  json_dict (prod_map id f <$> map_to_list m) = f <$> m.
Proof.
  unfold json_dict. rewrite <- (list_to_map_to_list (f <$> m)).
  apply list_to_map_proper.
  - rewrite fmap_reverse, reverse_Permutation, <- list_fmap_compose.
    apply NoDup_fst_map_to_list.
  - by rewrite reverse_Permutation, map_to_list_fmap.
Qed.

Lemma int_items_of_items (m : gmap string Z) :
  int_items (prod_map id JInt <$> map_to_list m) = Some (map_to_list m).
Proof.
  unfold int_items. apply mapM_fmap_Some. by intros [k z].
Qed.

Lemma list_to_map_reverse_to_list {A} (m : gmap string A) :
  list_to_map (reverse (map_to_list m)) = m.
Proof. symmetry. apply list_to_map_flip. by rewrite reverse_Permutation. Qed.

(** What [load_ingestion_result] does with the file [save_result] wrote
    for a result [r]: it goes on to the duration file with the prediction
    map of [r]. *)
Lemma load_ingestion_result_saved {image : Type}
    (ingestion : Ingestion.t image) (r : Ingestion.ingestion_result_t)
    (scoring : Scoring.t) (dir : string) (files : gmap string json) :
  Ingestion.ingestion_result ingestion = Some r →
  Scoring.load_ingestion_result scoring dir
    (Ingestion.save_result ingestion dir files) =
    let with_duration duration :=
      Scoring.mk (Scoring.start_time scoring) (Scoring.end_time scoring)
        (Scoring.reference_data scoring)
        (Some (Ingestion.result_predictions r)) duration
        (Scoring.scores_dict scoring) in
    match files !! path_join dir "ingestion_duration.json" with
    | None => Some (Ok (with_duration (Scoring.ingestion_duration scoring)))
    | Some (JObject duration_data) =>
        match json_dict duration_data !! "ingestion_duration" with
        | None | Some JNull => Some (Ok (with_duration None))
        | Some (JInt minutes) => Some (Ok (with_duration (Some minutes)))
        | Some _ => None
        end
    | Some _ => Some (Raise AttributeError)
    end.
Proof.
  intros Hr. unfold Scoring.load_ingestion_result, Ingestion.save_result.
  rewrite lookup_insert_eq, Hr. cbn [Ingestion.result_json].
  assert (Hget : json_dict
            [("predictions",
              JObject (prod_map id JInt
                         <$> map_to_list (Ingestion.result_predictions r)));
             ("num_predictions", JInt (Ingestion.num_predictions r))]
            !! "predictions"
          = Some (JObject (prod_map id JInt
                    <$> map_to_list (Ingestion.result_predictions r)))).
  { unfold json_dict. cbn [reverse rev_append list_to_map foldr].
    rewrite lookup_insert_ne by done. apply lookup_insert_eq. }
  rewrite Hget. cbn [from_option id]. rewrite int_items_of_items.
  cbn [mbind option_bind]. rewrite list_to_map_reverse_to_list.
  by rewrite lookup_insert_ne by (intros [=]%path_join_inj).
Qed.

(** C9. Round trip of the two files. From the [result.json] that
    [save_result] wrote in the same directory, [load_ingestion_result]
    never reads another prediction map than the one of the ingestion
    result, whatever else the directory holds; and it does return, with
    exactly that map, when the duration file is absent or is as
    [save_duration] writes it. The dict [json.load] makes of the
    [scores.json] that [write_scores] wrote has exactly the fields of the
    record, each with its value. *)
Theorem result_and_scores_round_trip {image : Type}
    (ingestion : Ingestion.t image) (r : Ingestion.ingestion_result_t)
    (scoring : Scoring.t) (dir : string) (files : gmap string json) :
  Ingestion.ingestion_result ingestion = Some r →
  (∀ scoring',
     Scoring.load_ingestion_result scoring dir
       (Ingestion.save_result ingestion dir files) = Some (Ok scoring') →
     Scoring.ingestion_result scoring'
     = Some (Ingestion.result_predictions r))
  ∧ (files !! path_join dir "ingestion_duration.json" = None
     ∨ (∃ minutes,
          files !! path_join dir "ingestion_duration.json"
          = Some (JObject [("ingestion_duration", JInt minutes)])) →
     ∃ scoring',
       Scoring.load_ingestion_result scoring dir
         (Ingestion.save_result ingestion dir files) = Some (Ok scoring')
       ∧ Scoring.ingestion_result scoring'
         = Some (Ingestion.result_predictions r))
  ∧ (∃ fields,
       Scoring.write_scores scoring dir files !! path_join dir "scores.json"
       = Some (JObject fields)
       ∧ Scoring.of_json <$> json_dict fields
         = Some <$> Scoring.scores_dict scoring).
Proof.
  intros Hr.
  rewrite (load_ingestion_result_saved ingestion r scoring dir files Hr).
  cbn zeta. split; [|split].
  - intros scoring'.
    destruct (files !! path_join dir "ingestion_duration.json")
      as [[| | |duration_data]|]; try (intros [= <-]; done).
    destruct (json_dict duration_data !! "ingestion_duration") as [[| | |]|];
      intros [= <-]; done.
  - intros [->|[minutes ->]].
    + by eexists.
    + unfold json_dict. cbn [reverse rev_append list_to_map foldr].
      rewrite lookup_insert_eq. by eexists.
  - unfold Scoring.write_scores. rewrite lookup_insert_eq.
    eexists. split; [reflexivity|].
    rewrite json_dict_of_items, <- map_fmap_compose.
    apply map_fmap_ext. by intros k [z|f] _.
Qed.

(** Before [compute_result] has run there is no result to write:
    [save_result] writes [null], on which [load_ingestion_result] raises. *)
Lemma save_result_before_compute_result :
  Scoring.load_ingestion_result Scoring.init "out"
    (Ingestion.save_result (image := Z) Ingestion.init "out" ∅)
  = Some (Raise AttributeError).
Proof. reflexivity. Qed.

Lemma result_and_scores_round_trip_example :
  ∃ scoring',
    Scoring.load_ingestion_result Scoring.init "out"
      (Ingestion.save_result
         (Ingestion.mk (image := Z) None None None None None None
            (Some (Ingestion.mk_result Examples.ex_pred 3)))
         "out" ∅) = Some (Ok scoring')
    ∧ Scoring.ingestion_result scoring' = Some Examples.ex_pred.
Proof.
  exact (proj1 (proj2 (result_and_scores_round_trip
                  (Ingestion.mk (image := Z) None None None None None None
                     (Some (Ingestion.mk_result Examples.ex_pred 3)))
                  (Ingestion.mk_result Examples.ex_pred 3)
                  Scoring.init "out" ∅ eq_refl)) (or_introl eq_refl)).
Defined.

End RoundTripProperties.
